(** * show_cleaning: a shallow embedding of the TV-show cleaning script

    The script [show_cleaning.py] is a straight-line pipeline over one
    pandas DataFrame: load, [dropna], [drop_duplicates], [sort_values],
    [reset_index], [astype(int)], three aggregates, and a matplotlib chart.

    The embedding has two layers.  The library layer ([Py], [Np], [Pd],
    [Plt]) gives the primitives the script calls, as functions on lists of
    rows; the script layer ([Script]) is the script itself, statement by
    statement, with the names it uses.

    Data.  A DataFrame is a list of rows in row order, each row carrying its
    index label.  The script reads three columns, and a cell of each is what
    [read_csv] leaves there.  An entry of the [title] or of the [year]
    column is a text, a number, or missing: a column is loaded as numbers
    when every entry of it is an integer numeral or empty, and as texts
    otherwise, so the entries of one column of a loaded frame are of one
    kind.  In a numeric column with missing entries the numbers are floats,
    and a number stands for its value.  An [episodes] cell is an integer
    (int64 or uint64), a float64 (NaN for a missing entry), a boolean or a
    [str].  [episodes] is the one column whose dtype the script changes, so
    a row is parametric in the type of that field: loaded cells ([cell])
    before [astype(int)], int64 values ([Z]) after it.

    Effects.  Python exceptions are the [Raise] results of an error monad;
    the chart is the list of matplotlib calls made, threaded through the
    drawing code together with the way the run ends.

    Fixed-width arithmetic is written out: int64 sums wrap around, floats
    are IEEE binary64 values ([spec_float]) and are truncated toward zero by
    the integer conversion.  A [str] holds the UTF-8 bytes of its text;
    [int()] reads it by code points, with the decimal digits and white space
    of Unicode 14 (CPython 3.11). *)

From Stdlib Require Import ZArith List String Ascii Bool Lia.
From Stdlib Require Import Sorting.Sorted Sorting.Permutation.
From Stdlib Require Import Floats.SpecFloat.
Import ListNotations.

Local Open Scope string_scope.
Local Open Scope list_scope.
Local Open Scope Z_scope.

(* ================================================================== *)
(** ** Python: exceptions, [int(str)], [min] and [max] *)

Module Py.

(** The exceptions the run can end with.  [ValueError msg] is a
    [ValueError] with a fixed text.  [InvalidLiteral s] is the [ValueError]
    of [int()] on a malformed [str] [s], whose text quotes [s];
    [DigitLimit n] is the [ValueError] of [int()] on a numeral of [n] digits,
    more than the interpreter converts.  [NonFinite] is the [ValueError]
    pandas raises when a float column holding an infinity or NaN is cast to
    an integer dtype.  [OverflowError] is raised when a Python integer does
    not fit the int64 it is stored in, [TypeError] when an operator meets an
    [int] and a [str]. *)
Inductive exn : Type :=
| ValueError (msg : string)
| InvalidLiteral (s : string)
| DigitLimit (digits : Z)
| NonFinite
| OverflowError
| TypeError.

Inductive result (A : Type) : Type :=
| Ok (a : A)
| Raise (e : exn).
Arguments Ok {A} a.
Arguments Raise {A} e.

Definition bind {A B : Type} (m : result A) (k : A -> result B) : result B :=
  match m with
  | Ok a => k a
  | Raise e => Raise e
  end.

Fixpoint mapM {A B : Type} (f : A -> result B) (l : list A) : result (list B) :=
  match l with
  | [] => Ok []
  | x :: l' =>
      bind (f x) (fun y => bind (mapM f l') (fun ys => Ok (y :: ys)))
  end.

(** The bytes of a [str]. *)
Definition bytes (s : string) : list Z :=
  map (fun a => Z.of_nat (nat_of_ascii a)) (list_ascii_of_string s).

Definition is_cont (b : Z) : bool := (128 <=? b) && (b <? 192).

(** The code points of a UTF-8 byte sequence.  A byte that starts no
    well-formed sequence, which a decoded [str] never holds, is read as
    [-1]. *)
Fixpoint decode_utf8 (l : list Z) : list Z :=
  match l with
  | [] => []
  | b0 :: l1 =>
      if b0 <? 128 then b0 :: decode_utf8 l1
      else
        match l1 with
        | b1 :: l2 =>
            if (192 <=? b0) && (b0 <? 224) && is_cont b1
            then ((b0 - 192) * 64 + (b1 - 128)) :: decode_utf8 l2
            else
              match l2 with
              | b2 :: l3 =>
                  if (224 <=? b0) && (b0 <? 240) && is_cont b1 && is_cont b2
                  then ((b0 - 224) * 4096 + (b1 - 128) * 64 + (b2 - 128))
                       :: decode_utf8 l3
                  else
                    match l3 with
                    | b3 :: l4 =>
                        if (240 <=? b0) && (b0 <? 248)
                           && is_cont b1 && is_cont b2 && is_cont b3
                        then ((b0 - 240) * 262144 + (b1 - 128) * 4096
                              + (b2 - 128) * 64 + (b3 - 128))
                             :: decode_utf8 l4
                        else (-1) :: decode_utf8 l1
                    | [] => (-1) :: decode_utf8 l1
                    end
              | [] => (-1) :: decode_utf8 l1
              end
        | [] => [-1]
        end
  end.

(** The white space of Unicode beyond ASCII. *)
Definition uspace (cp : Z) : bool :=
  existsb (Z.eqb cp) [133; 160; 5760; 8232; 8233; 8239; 8287; 12288]
  || ((8192 <=? cp) && (cp <=? 8202)).

(** The code points of the digit zero of every decimal digit system of
    Unicode; the digits 0 to 9 of a system are consecutive. *)
Definition decimal_zeros : list Z :=
  [ 48; 1632; 1776; 1984; 2406; 2534; 2662; 2790; 2918; 3046; 3174; 3302;
    3430; 3558; 3664; 3792; 3872; 4160; 4240; 6112; 6160; 6470; 6608; 6784;
    6800; 6992; 7088; 7232; 7248; 42528; 43216; 43264; 43472; 43504; 43600;
    44016; 65296; 66720; 68912; 69734; 69872; 69942; 70096; 70384; 70736;
    70864; 71248; 71360; 71472; 71904; 72016; 72784; 73040; 73120; 92768;
    92864; 93008; 120782; 120792; 120802; 120812; 120822; 123200; 123632;
    125264; 130032 ].

Definition udecimal (cp : Z) : option Z :=
  option_map (fun zero => cp - zero)
             (find (fun zero => (zero <=? cp) && (cp <? zero + 10)) decimal_zeros).

(** What [int()] makes of a code point before it parses: ASCII is kept,
    Unicode white space becomes a space, a Unicode decimal digit becomes its
    ASCII digit, anything else a question mark. *)
Definition to_ascii (cp : Z) : Z :=
  if cp <? 127 then cp
  else if uspace cp then 32
  else match udecimal cp with
       | Some d => 48 + d
       | None => 63
       end.

(** The white space the parser skips: tab, LF, VT, FF, CR and space. *)
Definition is_space (c : Z) : bool := ((9 <=? c) && (c <=? 13)) || (c =? 32).

Definition is_digit (c : Z) : bool := (48 <=? c) && (c <=? 57).

Fixpoint skip_spaces (l : list Z) : list Z :=
  match l with
  | c :: l' => if is_space c then skip_spaces l' else l
  | [] => []
  end.

(** The run of decimal digits at the head of [l], single underscores allowed
    between digits: its value, its number of digits and what follows it.
    [None] on a doubled underscore or an underscore at the end of the run.
    [us] tells whether the previous character was an underscore. *)
Fixpoint scan (acc n : Z) (us : bool) (l : list Z) : option (Z * Z * list Z) :=
  match l with
  | [] => if us then None else Some (acc, n, [])
  | c :: l' =>
      if is_digit c then scan (10 * acc + (c - 48)) (n + 1) false l'
      else if c =? 95 then
             if us then None else scan acc n true l'
           else if us then None else Some (acc, n, l)
  end.

(** The most digits [int()] converts (the interpreter's default). *)
Definition max_str_digits : Z := 4300.

(** The digits of [int()], after the white space and the sign: a run of
    digits that does not start with an underscore, of at most
    [max_str_digits] digits and at least one, then white space to the end. *)
Definition int_of_digits (s : string) (neg : bool) (ds : list Z) : result Z :=
  if match ds with c :: _ => c =? 95 | [] => false end
  then Raise (InvalidLiteral s)
  else
    match scan 0 0 false ds with
    | None => Raise (InvalidLiteral s)
    | Some (v, n, rest) =>
        if max_str_digits <? n then Raise (DigitLimit n)
        else if n =? 0 then Raise (InvalidLiteral s)
        else match skip_spaces rest with
             | [] => Ok (if neg then - v else v)
             | _ :: _ => Raise (InvalidLiteral s)
             end
    end.

(** [int(s)] for a [str], in base 10: white space, an optional sign, the
    digits, white space. *)
Definition int_of_str (s : string) : result Z :=
  match skip_spaces (map to_ascii (decode_utf8 (bytes s))) with
  | c :: l =>
      if c =? 45 then int_of_digits s true l
      else if c =? 43 then int_of_digits s false l
      else int_of_digits s false (c :: l)
  | [] => int_of_digits s false []
  end.

(** The objects a column of titles or years holds once it is a Python
    list: integers and texts. *)
Inductive obj : Type :=
| PyInt (z : Z)
| PyStr (s : string).

Coercion PyInt : Z >-> obj.
Coercion PyStr : string >-> obj.

(** [a < b] and [a > b]: numbers by value, texts in code-point order; a
    number and a text do not compare. *)
Definition py_lt (a b : obj) : result bool :=
  match a, b with
  | PyInt x, PyInt y => Ok (x <? y)
  | PyStr x, PyStr y => Ok (x <? y)%string
  | _, _ => Raise TypeError
  end.

Definition py_gt (a b : obj) : result bool := py_lt b a.

(** [a + n] for an integer [n]. *)
Definition py_add (a : obj) (n : Z) : result obj :=
  match a with
  | PyInt x => Ok (PyInt (x + n))
  | PyStr _ => Raise TypeError
  end.

(** The builtins [min] and [max]: one pass that keeps the best item so far,
    replaced by an item that is smaller (greater). *)
Fixpoint min_from (m : obj) (l : list obj) : result obj :=
  match l with
  | [] => Ok m
  | x :: l' => bind (py_lt x m) (fun b => min_from (if b then x else m) l')
  end.

Fixpoint max_from (m : obj) (l : list obj) : result obj :=
  match l with
  | [] => Ok m
  | x :: l' => bind (py_gt x m) (fun b => max_from (if b then x else m) l')
  end.

Definition min (l : list obj) : result obj :=
  match l with
  | [] => Raise (ValueError "min() arg is an empty sequence")
  | x :: l' => min_from x l'
  end.

Definition max (l : list obj) : result obj :=
  match l with
  | [] => Raise (ValueError "max() arg is an empty sequence")
  | x :: l' => max_from x l'
  end.

End Py.

Notation "x <- m ;; k" := (Py.bind m (fun x => k))
  (at level 61, m at next level, right associativity).

(* ================================================================== *)
(** ** NumPy: int64, float64 and [arange] *)

Module Np.

Definition int64_min : Z := - 2 ^ 63.
Definition int64_max : Z := 2 ^ 63 - 1.

Definition in_int64 (z : Z) : bool := (int64_min <=? z) && (z <=? int64_max).

(** Two's-complement reduction of an integer to int64. *)
Definition wrap64 (z : Z) : Z := (z + 2 ^ 63) mod 2 ^ 64 - 2 ^ 63.

(** int64 addition as the [add] ufunc performs it: silently wrapping. *)
Definition add64 (a b : Z) : Z := wrap64 (a + b).

(** float64 values are IEEE binary64, as [spec_float]. *)
Definition prec : Z := 53.
Definition emax : Z := 1024.

(** The float64 nearest to an integer (round to nearest, ties to even). *)
Definition float_of_Z (z : Z) : spec_float := binary_normalize prec emax z 0 false.

(** Truncation of a finite float toward zero; [None] on NaN and infinities. *)
Definition trunc (f : spec_float) : option Z :=
  match f with
  | S754_zero _ => Some 0
  | S754_finite s m e =>
      let a := if 0 <=? e then Z.pos m * 2 ^ e else Z.pos m / 2 ^ (- e) in
      Some (if s then - a else a)
  | S754_infinity _ | S754_nan => None
  end.

(** The C cast [(int64) double] applied to the truncated value.  A value
    outside int64 is not diagnosed; on x86-64 the conversion instruction
    yields the bit pattern of [int64_min]. *)
Definition cast_int64 (t : Z) : Z := if in_int64 t then t else int64_min.

(** [np.arange(start, stop, step)] on integers, for a positive step. *)
Definition arange (start stop step : Z) : list Z :=
  map (fun i => start + Z.of_nat i * step)
      (seq 0 (Z.to_nat ((stop - start + step - 1) / step))).

(** [np.arange] on the objects the script passes: integers give the range,
    a text is rejected. *)
Definition arange_obj (start stop : Py.obj) (step : Z) : Py.result (list Z) :=
  match start, stop with
  | Py.PyInt a, Py.PyInt b => Py.Ok (arange a b step)
  | _, _ => Py.Raise Py.TypeError
  end.

End Np.

(* ================================================================== *)
(** ** pandas: cells, rows, frames and the primitives the script calls *)

Module Pd.

Import Py.

(** A cell of the [episodes] column as [read_csv] leaves it: a value of an
    integer column (int64, or uint64 when the column holds a value from
    [2 ^ 63] on), a value of a float64 column (a missing entry is the float
    NaN), a value of a boolean column, or a [str] of an object column. *)
Inductive cell : Type :=
| IntV (z : Z)
| FloatV (f : spec_float)
| StrV (s : string)
| BoolV (b : bool).

(** [pd.isna] on a cell. *)
Definition isna (c : cell) : bool :=
  match c with
  | FloatV S754_nan => true
  | _ => false
  end.

(** An entry of the [title] or of the [year] column: a value (a number or
    a text), or a missing entry. *)
Inductive entry : Type :=
| Val (v : obj)
| NA.

Coercion Val : obj >-> entry.

Definition obj_eqb (a b : obj) : bool :=
  match a, b with
  | PyInt x, PyInt y => x =? y
  | PyStr x, PyStr y => String.eqb x y
  | _, _ => false
  end.

(** Equality of entries as [drop_duplicates], [unique] and the sort see it:
    two missing entries are the same value. *)
Definition entry_eqb (a b : entry) : bool :=
  match a, b with
  | Val x, Val y => obj_eqb x y
  | NA, NA => true
  | _, _ => false
  end.

Definition notna (a : entry) : bool :=
  match a with
  | Val _ => true
  | NA => false
  end.

(** The ascending order of the values of a column: numbers in numeric
    order, texts in code-point order (the byte order of the UTF-8 strings).
    Where an object column mixes both, numbers come before texts. *)
Definition obj_le (a b : obj) : bool :=
  match a, b with
  | PyInt x, PyInt y => x <=? y
  | PyStr x, PyStr y => (x <=? y)%string
  | PyInt _, PyStr _ => true
  | PyStr _, PyInt _ => false
  end.

(** The ascending order of a column: its values in order, the missing
    entries last ([na_position="last"]). *)
Definition entry_le (a b : entry) : bool :=
  match a, b with
  | Val x, Val y => obj_le x y
  | _, NA => true
  | NA, Val _ => false
  end.

(** One row of the frame, restricted to the columns the script reads.
    [E] is the type of the [episodes] field. *)
Record show (E : Type) : Type := Show {
  title : entry;
  year : entry;
  episodes : E
}.
Arguments Show {E} title year episodes.
Arguments title {E} s.
Arguments year {E} s.
Arguments episodes {E} s.

(** Rows in order, each with its index label. *)
Definition DataFrame (E : Type) : Type := list (nat * show E).

Definition index {E} (df : DataFrame E) : list nat := map fst df.
Definition records {E} (df : DataFrame E) : list (show E) := map snd df.

(** The frame [read_csv] builds from the parsed lines of the file: the
    records in file order under a [RangeIndex]. *)
Definition read_csv {E} (lines : list (show E)) : DataFrame E :=
  combine (seq 0 (List.length lines)) lines.

(** [df.dropna(subset=["episodes"])] *)
Definition dropna (df : DataFrame cell) : DataFrame cell :=
  filter (fun r => negb (isna (episodes (snd r)))) df.

(** [df.drop_duplicates(subset=["title"], keep="first")]: one pass in row
    order with the set of titles seen so far; a row is kept when its title
    has not been seen. *)
Fixpoint drop_seen {E} (seen : list entry) (df : DataFrame E) : DataFrame E :=
  match df with
  | [] => []
  | r :: df' =>
      if existsb (entry_eqb (title (snd r))) seen
      then drop_seen seen df'
      else r :: drop_seen (title (snd r) :: seen) df'
  end.

Definition drop_duplicates {E} (df : DataFrame E) : DataFrame E :=
  drop_seen [] df.

(** The order of [sort_values(by=["year", "title"], ascending=[True, True])]:
    by year, ties broken by title. *)
Definition key_le {E} (a b : show E) : bool :=
  if entry_eqb (year a) (year b) then entry_le (title a) (title b)
  else entry_le (year a) (year b).

(** The sort is stable (pandas sorts several keys with a stable lexsort):
    a row goes in front of the first row that is not before it. *)
Fixpoint insert_row {E} (r : nat * show E) (df : DataFrame E) : DataFrame E :=
  match df with
  | [] => [r]
  | r' :: df' =>
      if key_le (snd r) (snd r') then r :: r' :: df'
      else r' :: insert_row r df'
  end.

Fixpoint sort_values {E} (df : DataFrame E) : DataFrame E :=
  match df with
  | [] => []
  | r :: df' => insert_row r (sort_values df')
  end.

(** [df.reset_index(drop=True)] *)
Definition reset_index {E} (df : DataFrame E) : DataFrame E :=
  combine (seq 0 (List.length df)) (records df).

(** [astype(int)] on one cell.  An integer is cast to int64 (an int64 is
    kept, a uint64 from [2 ^ 63] on wraps); a boolean becomes 1 or 0; a
    float is truncated toward zero and cast, after the check that it is
    finite; a [str] goes through [int()] and must fit int64. *)
Definition astype_int_cell (c : cell) : result Z :=
  match c with
  | IntV z => Ok (Np.wrap64 z)
  | BoolV b => Ok (if b then 1 else 0)
  | FloatV f =>
      match Np.trunc f with
      | Some t => Ok (Np.cast_int64 t)
      | None => Raise NonFinite
      end
  | StrV s =>
      z <- int_of_str s ;;
      if Np.in_int64 z then Ok z else Raise OverflowError
  end.

(** [df["episodes"] = df["episodes"].astype(int)] *)
Definition astype_int_row (r : nat * show cell) : result (nat * show Z) :=
  z <- astype_int_cell (episodes (snd r)) ;;
  Ok (fst r, Show (title (snd r)) (year (snd r)) z).

Definition astype_int (df : DataFrame cell) : result (DataFrame Z) :=
  mapM astype_int_row df.

(** An int64 [episodes] column read back as loaded cells. *)
Definition as_loaded (df : DataFrame Z) : DataFrame cell :=
  map (fun r => (fst r, Show (title (snd r)) (year (snd r)) (IntV (episodes (snd r))))) df.

(** [Series.unique()]: the distinct values in order of first appearance. *)
Fixpoint unique_seen (seen : list entry) (l : list entry) : list entry :=
  match l with
  | [] => []
  | s :: l' =>
      if existsb (entry_eqb s) seen then unique_seen seen l'
      else s :: unique_seen (s :: seen) l'
  end.

Definition unique (l : list entry) : list entry := unique_seen [] l.

(** [Series.nunique()]: the number of distinct values, a missing entry not
    counted ([dropna=True]). *)
Definition nunique (l : list entry) : Z :=
  Z.of_nat (List.length (filter notna (unique l))).

(** [Series.sum()] on an int64 column: an int64 accumulator. *)
Definition sum (l : list Z) : Z := fold_left Np.add64 l 0.

(** The sorted distinct keys of a [groupby]. *)
Fixpoint insert_key (y : obj) (ks : list obj) : list obj :=
  match ks with
  | [] => [y]
  | k :: ks' =>
      if obj_eqb y k then k :: ks'
      else if obj_le y k then y :: k :: ks'
      else k :: insert_key y ks'
  end.

Definition group_keys (ys : list obj) : list obj := fold_right insert_key [] ys.

(** The values a [groupby("year")] groups by: rows without a year belong to
    no group ([dropna=True]). *)
Definition present_years {E} (df : DataFrame E) : list obj :=
  flat_map (fun r => match year (snd r) with
                     | Val y => [y]
                     | NA => []
                     end) df.

Definition has_year {E} (k : obj) (r : show E) : bool :=
  entry_eqb (year r) (Val k).

(** [df.groupby("year").size().reset_index(name="shows")]: one row per
    distinct year, in ascending order of year, with the number of rows of
    that year. *)
Definition groupby_year_size {E} (df : DataFrame E) : list (obj * Z) :=
  map (fun k => (k, Z.of_nat (List.length (filter (fun r => has_year k (snd r)) df))))
      (group_keys (present_years df)).

End Pd.

(* ================================================================== *)
(** ** matplotlib: the drawing calls, recorded in call order *)

Module Plt.

Import Py.

Inductive call : Type :=
| figure (w h : Z)
| plot (xs : list obj) (ys : list Z)
| annotate (label : Z) (x : obj) (y : Z)
| text (total_shows total_episodes : Z)
| grid
| xlabel (s : string)
| ylabel (s : string)
| title (s : string)
| xticks (ticks : list Z)
| show.

(** A drawing program threads the calls made so far and may raise. *)
Definition drawing (A : Type) : Type := list call -> list call * result A.

Definition ret {A} (a : A) : drawing A := fun log => (log, Ok a).

Definition bind {A B} (m : drawing A) (k : A -> drawing B) : drawing B :=
  fun log =>
    match m log with
    | (log', Ok a) => k a log'
    | (log', Raise e) => (log', Raise e)
    end.

Definition draw (c : call) : drawing unit := fun log => (log ++ [c], Ok tt).

Definition eval {A} (r : result A) : drawing A := fun log => (log, r).

Fixpoint for_each {A} (f : A -> drawing unit) (l : list A) : drawing unit :=
  match l with
  | [] => ret tt
  | x :: l' => bind (f x) (fun _ => for_each f l')
  end.

End Plt.

Notation "x <~ m ;; k" := (Plt.bind m (fun x => k))
  (at level 61, m at next level, right associativity).
Notation "m ;;; k" := (Plt.bind m (fun _ => k))
  (at level 61, right associativity).

(* ================================================================== *)
(** ** The script *)

Module Script.

Import Py Pd.

Section Cleaning.

(** [shows = pd.read_csv("shows.csv")] *)
Variable shows : DataFrame cell.

(** [clean_shows = shows.dropna(subset=["episodes"])] *)
Definition clean_shows : DataFrame cell := dropna shows.

(** [removed_duplicates = clean_shows.drop_duplicates(subset=["title"], keep="first")] *)
Definition removed_duplicates : DataFrame cell := drop_duplicates clean_shows.

(** [sorted_shows = removed_duplicates.sort_values(by=["year", "title"], ...)] *)
Definition sorted_shows_by_key : DataFrame cell := sort_values removed_duplicates.

(** [sorted_shows = sorted_shows.reset_index(drop=True)] *)
Definition sorted_shows_reindexed : DataFrame cell := reset_index sorted_shows_by_key.

(** [sorted_shows["episodes"] = sorted_shows["episodes"].astype(int)] *)
Definition sorted_shows : result (DataFrame Z) := astype_int sorted_shows_reindexed.

End Cleaning.

Section Aggregates.

(** The cleaned frame, [sorted_shows] after the conversion. *)
Variable cleaned : DataFrame Z.

(** [total_shows_overall = sorted_shows["title"].nunique()] *)
Definition total_shows_overall : Z := nunique (map title (records cleaned)).

(** [total_episodes_overall = sorted_shows["episodes"].sum()] *)
Definition total_episodes_overall : Z := sum (map episodes (records cleaned)).

(** [num = sorted_shows.groupby("year").size().reset_index(name="shows")] *)
Definition num : list (obj * Z) := groupby_year_size cleaned.

(** [years = num["year"].tolist()] and [counts = num["shows"].tolist()] *)
Definition years : list obj := map fst num.
Definition counts : list Z := map snd num.

(** Statements 10 to 16: the chart. *)
Definition render : Plt.drawing unit :=
  Plt.draw (Plt.figure 12 6) ;;;
  Plt.draw (Plt.plot years counts) ;;;
  Plt.for_each (fun xy => Plt.draw (Plt.annotate (snd xy) (fst xy) (snd xy)))
               (combine years counts) ;;;
  Plt.draw (Plt.text total_shows_overall total_episodes_overall) ;;;
  Plt.draw Plt.grid ;;;
  Plt.draw (Plt.xlabel "Year") ;;;
  Plt.draw (Plt.ylabel "Number of Shows") ;;;
  Plt.draw (Plt.title "TV Shows Aired per Year") ;;;
  lo <~ Plt.eval (Py.min years) ;;
  hi <~ Plt.eval (Py.max years) ;;
  stop <~ Plt.eval (Py.py_add hi 1) ;;
  ticks <~ Plt.eval (Np.arange_obj lo stop 5) ;;
  Plt.draw (Plt.xticks ticks) ;;;
  Plt.draw Plt.show.

End Aggregates.

(** The whole run on a loaded frame: the drawing calls made, and how the
    run ends. *)
Definition main (shows : DataFrame cell) : list Plt.call * result unit :=
  match sorted_shows shows with
  | Ok cleaned => render cleaned []
  | Raise e => ([], Raise e)
  end.

End Script.

(* ================================================================== *)
(** ** Notions the properties are stated with *)

Import Py Pd Script.

(** The exact (unbounded) sum of a list of integers. *)
Definition exact_sum (l : list Z) : Z := fold_right Z.add 0 l.

(** The first record of a list, in list order, that bears title [t]. *)
Definition first_with_title {E} (t : entry) (l : list (show E)) : option (show E) :=
  find (fun r => entry_eqb (title r) t) l.

(** The number of records of year [y]. *)
Definition count_year {E} (y : obj) (l : list (show E)) : Z :=
  Z.of_nat (List.length (filter (has_year y) l)).

(** The records that have a title, and those that have a year. *)
Definition with_title {E} (l : list (show E)) : list (show E) :=
  filter (fun r => notna (title r)) l.

Definition with_year {E} (l : list (show E)) : list (show E) :=
  filter (fun r => notna (year r)) l.

(** Row [r'] is row [r] with its [episodes] cell converted by [astype(int)]:
    same label, same title, same year. *)
Definition converts (r : nat * show cell) (r' : nat * show Z) : Prop :=
  fst r' = fst r /\
  title (snd r') = title (snd r) /\
  year (snd r') = year (snd r) /\
  astype_int_cell (episodes (snd r)) = Ok (episodes (snd r')).

(** The sort key of a record. *)
Definition key {E} (r : show E) : entry * entry := (year r, title r).

(** Values in the ascending order of their column: numbers in numeric
    order, texts in lexicographic order. *)
Definition obj_ordered (a b : obj) : Prop :=
  match a, b with
  | PyInt x, PyInt y => x <= y
  | PyStr x, PyStr y => (x <=? y)%string = true
  | PyInt _, PyStr _ => True
  | PyStr _, PyInt _ => False
  end.

(** A value strictly before another in the order of the column. *)
Definition obj_before (a b : obj) : Prop := obj_ordered a b /\ a <> b.

(** Entries in the ascending order of their column, a missing entry after
    every value. *)
Definition entry_ordered (a b : entry) : Prop :=
  match a, b with
  | Val x, Val y => obj_ordered x y
  | _, NA => True
  | NA, Val _ => False
  end.

(** [(year, title)] pairs in ascending lexicographic order: the first has
    the earlier year, or both have the same year (or none) and the first has
    the earlier title. *)
Definition key_ordered (a b : entry * entry) : Prop :=
  (fst a <> fst b /\ entry_ordered (fst a) (fst b)) \/
  (fst a = fst b /\ entry_ordered (snd a) (snd b)).

(** The comparisons of Python on entries: any comparison with a missing
    entry is false, and a number is not compared with a text. *)
Definition compared_lt (a b : entry) : Prop :=
  match a, b with
  | Val (PyInt x), Val (PyInt y) => x < y
  | Val (PyStr x), Val (PyStr y) => (x <? y)%string = true
  | _, _ => False
  end.

Definition compared_eq (a b : entry) : Prop :=
  match a, b with
  | Val x, Val y => x = y
  | _, _ => False
  end.

(** [r1.year < r2.year], or [r1.year == r2.year] and [r1.title <= r2.title]. *)
Definition compared_le {E} (r1 r2 : show E) : Prop :=
  compared_lt (year r1) (year r2) \/
  (compared_eq (year r1) (year r2) /\
   (compared_lt (title r1) (title r2) \/ compared_eq (title r1) (title r2))).

(** A list is a subsequence of another: it is obtained by removing elements. *)
Inductive subseq {A : Type} : list A -> list A -> Prop :=
| subseq_nil : subseq [] []
| subseq_skip x l1 l2 : subseq l1 l2 -> subseq l1 (x :: l2)
| subseq_keep x l1 l2 : subseq l1 l2 -> subseq (x :: l1) (x :: l2).

(** The rows of the example of the specification, as [read_csv] loads them:
    the column holds a missing value, so it is a float64 column. *)
Definition example_rows : list (show cell) :=
  [ Show "Show A" 2020 (FloatV (Np.float_of_Z 10));
    Show "Show B" 2019 (FloatV S754_nan);
    Show "Show A" 2020 (FloatV (Np.float_of_Z 10));
    Show "Show C" 2019 (FloatV (Np.float_of_Z 5)) ].

(** The cleaned frame of [example_rows]. *)
Definition example_cleaned : DataFrame Z :=
  [ (0%nat, Show "Show C" 2019 5); (1%nat, Show "Show A" 2020 10) ].

(** Two rows of an int64 column whose exact sum does not fit int64. *)
Definition overflowing_rows : list (show cell) :=
  [ Show "A" 2020 (IntV (2 ^ 62)); Show "B" 2021 (IntV (2 ^ 62)) ].

(** The cleaned frame of [overflowing_rows]. *)
Definition overflowing_cleaned : DataFrame Z :=
  [ (0%nat, Show "A" 2020 (2 ^ 62)); (1%nat, Show "B" 2021 (2 ^ 62)) ].

(** Two rows with one title, the first of them without an episode count. *)
Definition shadowed_rows : list (show cell) :=
  [ Show "A" 2020 (FloatV S754_nan); Show "A" 2021 (FloatV (Np.float_of_Z 5)) ].

(** Two rows, the first without a year: the [year] column is float64. *)
Definition yearless_rows : list (show cell) :=
  [ Show "A" NA (IntV 1); Show "B" 2020 (IntV 2) ].

(** The cleaned frame of [yearless_rows]: the row without a year is last. *)
Definition yearless_cleaned : DataFrame Z :=
  [ (0%nat, Show "B" 2020 2); (1%nat, Show "A" NA 1) ].

(** Two rows, the first without a title. *)
Definition untitled_rows : list (show cell) :=
  [ Show NA 2020 (IntV 1); Show "B" 2020 (IntV 2) ].

(** The cleaned frame of [untitled_rows]. *)
Definition untitled_cleaned : DataFrame Z :=
  [ (0%nat, Show "B" 2020 2); (1%nat, Show NA 2020 1) ].


(** A cell that holds a number [astype(int)] accepts: an int64, or a float64
    that is neither NaN nor infinite. *)
Definition is_number (c : cell) : bool :=
  match c with
  | IntV _ => true
  | FloatV (S754_zero _) => true
  | FloatV (S754_finite _ _ _) => true
  | _ => false
  end.

(** The rows [dropna] keeps, as records: those with an [episodes] value. *)
Definition with_episodes (l : list (show cell)) : list (show cell) :=
  filter (fun r => negb (isna (episodes r))) l.

(** The annotation the chart loop draws for one row of the yearly summary. *)
Definition annotation (yc : obj * Z) : Plt.call :=
  Plt.annotate (snd yc) (fst yc) (snd yc).

(** The drawing calls of the chart up to the tick computation. *)
Definition chart_body (cleaned : DataFrame Z) : list Plt.call :=
  [Plt.figure 12 6; Plt.plot (years cleaned) (counts cleaned)]
  ++ map annotation (num cleaned)
  ++ [Plt.text (total_shows_overall cleaned) (total_episodes_overall cleaned);
      Plt.grid; Plt.xlabel "Year"; Plt.ylabel "Number of Shows";
      Plt.title "TV Shows Aired per Year"].

(** Whether a value is a number, and the numbers of a list of values. *)
Definition is_int (v : obj) : bool :=
  match v with
  | PyInt _ => true
  | PyStr _ => false
  end.



(** The order on rows that [sort_values] establishes. *)
Definition row_le {E} (r1 r2 : nat * show E) : Prop :=
  key_le (snd r1) (snd r2) = true.

(** Two rows whose years are texts: the [year] column is an object column. *)
Definition text_year_rows : list (show cell) :=
  [ Show "A" "MMXX" (IntV 1); Show "B" "MMXIX" (IntV 2) ].

(* ================================================================== *)
(** ** The error monad and the conversion step *)

Lemma mapM_Ok_Forall2 {A B : Type} (f : A -> result B) (l : list A) (l' : list B) :
  mapM f l = Ok l' <-> Forall2 (fun x y => f x = Ok y) l l'.
Proof.
  revert l'; induction l as [|x l IH]; intros l'; simpl.
  - split; intros H.
    + injection H as <-. constructor.
    + inversion H. reflexivity.
  - split; intros H.
    + destruct (f x) as [y|e] eqn:Hx; simpl in H; [|discriminate].
      destruct (mapM f l) as [ys|e] eqn:Hl; simpl in H; [|discriminate].
      injection H as <-. constructor; [assumption|]. apply IH. reflexivity.
    + inversion H as [|x0 y l0 ys Hx Hl]; subst.
      rewrite Hx; simpl. apply IH in Hl. rewrite Hl. reflexivity.
Qed.


Lemma astype_int_row_Ok (r : nat * show cell) (r' : nat * show Z) :
  astype_int_row r = Ok r' <-> converts r r'.
Proof.
  unfold astype_int_row, converts.
  destruct r as [i [t y c]], r' as [i' [t' y' z']]; simpl.
  destruct (astype_int_cell c) as [z|e]; simpl; split.
  - intros H; injection H as <- <- <- <-. auto.
  - intros (-> & -> & -> & H). injection H as ->. reflexivity.
  - discriminate.
  - intros (_ & _ & _ & H). discriminate.
Qed.

Lemma astype_int_Ok (df : DataFrame cell) (out : DataFrame Z) :
  astype_int df = Ok out <-> Forall2 converts df out.
Proof.
  unfold astype_int. split; intros H.
  - apply mapM_Ok_Forall2 in H.
    induction H; constructor; auto. now apply astype_int_row_Ok.
  - apply mapM_Ok_Forall2.
    induction H; constructor; auto. now apply astype_int_row_Ok.
Qed.

Lemma converts_index (df : DataFrame cell) (out : DataFrame Z) :
  Forall2 converts df out -> index out = index df.
Proof.
  induction 1 as [|r r' df out (Hi & _) _ IH]; simpl; [reflexivity|].
  now rewrite Hi, IH.
Qed.

Lemma converts_keys (df : DataFrame cell) (out : DataFrame Z) :
  Forall2 converts df out -> map key (records out) = map key (records df).
Proof.
  induction 1 as [|r r' df out (_ & Ht & Hy & _) _ IH]; simpl; [reflexivity|].
  unfold key at 1 3. now rewrite Ht, Hy, IH.
Qed.

Lemma converts_In (df : DataFrame cell) (out : DataFrame Z) (r' : show Z) :
  Forall2 converts df out -> In r' (records out) ->
  exists r, In r (records df) /\ title r' = title r /\ year r' = year r /\
            astype_int_cell (episodes r) = Ok (episodes r').
Proof.
  induction 1 as [|r0 r0' df out (_ & Ht & Hy & He) _ IH]; simpl; [contradiction|].
  intros [<-|Hin].
  - exists (snd r0). auto.
  - destruct (IH Hin) as (r & Hr & H). exists r. auto.
Qed.

Lemma map_key_titles {E} (l : list (show E)) : map snd (map key l) = map title l.
Proof. rewrite map_map. reflexivity. Qed.

Lemma map_key_years {E} (l : list (show E)) : map fst (map key l) = map year l.
Proof. rewrite map_map. reflexivity. Qed.

(* ================================================================== *)
(** ** Subsequences *)

Lemma subseq_refl {A} (l : list A) : subseq l l.
Proof. induction l; constructor; assumption. Qed.

Lemma subseq_trans {A} (l1 l2 l3 : list A) :
  subseq l1 l2 -> subseq l2 l3 -> subseq l1 l3.
Proof.
  intros H12 H23; revert l1 H12.
  induction H23 as [|x l2 l3 _ IH|x l2 l3 _ IH]; intros l1 H12.
  - assumption.
  - constructor. now apply IH.
  - inversion H12; subst; constructor; now apply IH.
Qed.

Lemma subseq_filter {A} (f : A -> bool) (l : list A) : subseq (filter f l) l.
Proof.
  induction l as [|x l IH]; simpl; [constructor|].
  destruct (f x); constructor; assumption.
Qed.

Lemma subseq_In {A} (l1 l2 : list A) (x : A) : subseq l1 l2 -> In x l1 -> In x l2.
Proof.
  induction 1; simpl; intuition.
Qed.

Lemma subseq_length {A} (l1 l2 : list A) :
  subseq l1 l2 -> (List.length l1 <= List.length l2)%nat.
Proof. induction 1; simpl; lia. Qed.

(* ================================================================== *)
(** ** [dropna] and [drop_duplicates] *)

Lemma dropna_In (df : DataFrame cell) (r : nat * show cell) :
  In r (dropna df) <-> In r df /\ isna (episodes (snd r)) = false.
Proof.
  unfold dropna. rewrite filter_In, negb_true_iff. reflexivity.
Qed.

Lemma dropna_id (df : DataFrame cell) :
  Forall (fun r => isna (episodes (snd r)) = false) df -> dropna df = df.
Proof.
  unfold dropna. induction 1 as [|r df Hr _ IH]; simpl; [reflexivity|].
  now rewrite Hr, IH.
Qed.

Lemma obj_eqb_eq (a b : obj) : obj_eqb a b = true <-> a = b.
Proof.
  destruct a as [x|x], b as [y|y]; simpl; split; intros H; try discriminate.
  - apply Z.eqb_eq in H. now subst.
  - injection H as ->. apply Z.eqb_refl.
  - apply String.eqb_eq in H. now subst.
  - injection H as ->. apply String.eqb_refl.
Qed.

Lemma entry_eqb_eq (a b : entry) : entry_eqb a b = true <-> a = b.
Proof.
  destruct a as [x|], b as [y|]; simpl; split; intros H;
    try discriminate; try reflexivity.
  - apply obj_eqb_eq in H. now subst.
  - injection H as ->. now apply obj_eqb_eq.
Qed.

Lemma entry_eqb_refl (a : entry) : entry_eqb a a = true.
Proof. now apply entry_eqb_eq. Qed.

Lemma entry_eqb_neq (a b : entry) : entry_eqb a b = false <-> a <> b.
Proof.
  rewrite <- entry_eqb_eq. destruct (entry_eqb a b); split; congruence.
Qed.

Lemma seen_In (t : entry) (seen : list entry) :
  existsb (entry_eqb t) seen = true <-> In t seen.
Proof.
  rewrite existsb_exists. split.
  - intros (s & Hs & Heq). apply entry_eqb_eq in Heq. now subst.
  - intros H. exists t. split; [assumption|apply entry_eqb_refl].
Qed.

Lemma seen_not_In (t : entry) (seen : list entry) :
  existsb (entry_eqb t) seen = false <-> ~ In t seen.
Proof.
  rewrite <- seen_In. destruct (existsb _ seen); split; congruence.
Qed.

Section DropSeen.

Context {E : Type}.
Implicit Types (df : DataFrame E) (seen : list entry) (r : nat * show E).

Lemma drop_seen_subseq seen df : subseq (drop_seen seen df) df.
Proof.
  revert seen; induction df as [|r df IH]; intros seen; simpl; [constructor|].
  destruct (existsb _ seen); constructor; apply IH.
Qed.

Lemma drop_seen_fresh seen df r :
  In r (drop_seen seen df) -> ~ In (title (snd r)) seen.
Proof.
  revert seen; induction df as [|r0 df IH]; intros seen; simpl; [contradiction|].
  destruct (existsb _ seen) eqn:Hs.
  - apply IH.
  - intros [<-|Hin].
    + now apply seen_not_In.
    + apply IH in Hin. intros H. apply Hin. now right.
Qed.

Lemma drop_seen_NoDup seen df :
  NoDup (map title (records (drop_seen seen df))).
Proof.
  revert seen; induction df as [|r0 df IH]; intros seen; simpl; [constructor|].
  destruct (existsb _ seen) eqn:Hs; [apply IH|].
  simpl. constructor; [|apply IH].
  unfold records. rewrite map_map, in_map_iff. intros (r & Heq & Hin).
  apply drop_seen_fresh in Hin. apply Hin. left. now rewrite Heq.
Qed.

(** A kept row is the first row of the frame with its title. *)
Lemma drop_seen_first seen df r :
  In r (drop_seen seen df) ->
  find (fun x => entry_eqb (title (snd x)) (title (snd r))) df = Some r.
Proof.
  revert seen; induction df as [|r0 df IH]; intros seen; simpl; [contradiction|].
  destruct (existsb _ seen) eqn:Hs.
  - intros Hin.
    destruct (entry_eqb (title (snd r0)) (title (snd r))) eqn:Heq.
    + apply entry_eqb_eq in Heq. apply drop_seen_fresh in Hin.
      apply seen_In in Hs. rewrite Heq in Hs. contradiction.
    + now apply (IH seen).
  - intros [<-|Hin].
    + now rewrite entry_eqb_refl.
    + destruct (entry_eqb (title (snd r0)) (title (snd r))) eqn:Heq.
      * apply entry_eqb_eq in Heq. apply drop_seen_fresh in Hin.
        exfalso. apply Hin. now left.
      * now apply (IH (title (snd r0) :: seen)).
Qed.

(** Nothing is dropped from a frame whose titles are distinct and unseen. *)
Lemma drop_seen_id seen df :
  NoDup (map title (records df)) ->
  (forall t, In t (map title (records df)) -> ~ In t seen) ->
  drop_seen seen df = df.
Proof.
  revert seen; induction df as [|r0 df IH]; intros seen Hnd Hfresh; simpl; [reflexivity|].
  simpl in Hnd. inversion Hnd as [|t ts Hnot Hnd']; subst.
  assert (Hs : existsb (entry_eqb (title (snd r0))) seen = false).
  { apply seen_not_In. apply Hfresh. now left. }
  rewrite Hs. f_equal. apply IH; [assumption|].
  intros t Ht [<-|Hin]; [contradiction|].
  apply (Hfresh t); [now right|assumption].
Qed.

End DropSeen.

Lemma find_records {E} (f : show E -> bool) (df : DataFrame E) :
  find f (records df) = option_map snd (find (fun x => f (snd x)) df).
Proof.
  induction df as [|r df IH]; simpl; [reflexivity|].
  destruct (f (snd r)); [reflexivity|assumption].
Qed.

(* ================================================================== *)
(** ** [sort_values] and [reset_index] *)

Lemma obj_le_ordered (a b : obj) : obj_le a b = true <-> obj_ordered a b.
Proof.
  destruct a as [x|x], b as [y|y]; simpl; try rewrite Z.leb_le; try tauto.
  split; [discriminate|tauto].
Qed.

Lemma entry_le_ordered (a b : entry) : entry_le a b = true <-> entry_ordered a b.
Proof.
  destruct a as [x|], b as [y|]; simpl; try tauto.
  - apply obj_le_ordered.
  - split; [discriminate|tauto].
Qed.

Lemma obj_le_total (a b : obj) : obj_le a b = false -> obj_le b a = true.
Proof.
  destruct a as [x|x], b as [y|y]; simpl; try discriminate; try reflexivity.
  - rewrite Z.leb_gt, Z.leb_le. lia.
  - intros H. destruct (String.leb_total x y) as [H'|H']; congruence.
Qed.

Lemma entry_le_total (a b : entry) : entry_le a b = false -> entry_le b a = true.
Proof.
  destruct a as [x|], b as [y|]; simpl; try discriminate; try reflexivity.
  apply obj_le_total.
Qed.

Lemma key_le_ordered {E} (a b : show E) :
  key_le a b = true <-> key_ordered (key a) (key b).
Proof.
  unfold key_le, key_ordered, key; simpl.
  destruct (entry_eqb (year a) (year b)) eqn:Heq.
  - apply entry_eqb_eq in Heq. rewrite entry_le_ordered. split.
    + intros H. right. now split.
    + intros [[Hne _]|[_ H]]; [contradiction|assumption].
  - apply entry_eqb_neq in Heq. rewrite entry_le_ordered. split.
    + intros H. left. now split.
    + intros [[_ H]|[Hy _]]; [assumption|contradiction].
Qed.

Lemma key_le_total {E} (a b : show E) :
  key_le a b = false -> key_le b a = true.
Proof.
  unfold key_le. destruct (entry_eqb (year a) (year b)) eqn:Heq.
  - apply entry_eqb_eq in Heq. rewrite <- Heq, entry_eqb_refl. apply entry_le_total.
  - assert (Hrev : entry_eqb (year b) (year a) = false).
    { apply entry_eqb_neq. apply entry_eqb_neq in Heq. congruence. }
    rewrite Hrev. apply entry_le_total.
Qed.

Section Sorting.

Context {E : Type}.
Implicit Types (df : DataFrame E) (r : nat * show E).

Lemma insert_row_perm r df : Permutation (insert_row r df) (r :: df).
Proof.
  induction df as [|r' df IH]; simpl; [reflexivity|].
  destruct (key_le (snd r) (snd r')); [reflexivity|].
  rewrite IH. apply perm_swap.
Qed.

Lemma sort_values_perm df : Permutation (sort_values df) df.
Proof.
  induction df as [|r df IH]; simpl; [reflexivity|].
  rewrite insert_row_perm. now constructor.
Qed.

Lemma insert_row_HdRel r0 r df :
  HdRel row_le r0 df -> row_le r0 r -> HdRel row_le r0 (insert_row r df).
Proof.
  intros Hhd Hle. destruct df as [|r' df]; simpl.
  - now constructor.
  - destruct (key_le (snd r) (snd r')); constructor; [assumption|].
    now inversion Hhd.
Qed.

Lemma insert_row_sorted r df :
  Sorted row_le df -> Sorted row_le (insert_row r df).
Proof.
  induction 1 as [|r' df Hs IH Hhd]; simpl.
  - repeat constructor.
  - destruct (key_le (snd r) (snd r')) eqn:Hle.
    + constructor; [now constructor|]. now constructor.
    + constructor; [assumption|].
      apply insert_row_HdRel; [assumption|]. now apply key_le_total.
Qed.

Lemma sort_values_sorted df : Sorted row_le (sort_values df).
Proof.
  induction df as [|r df IH]; simpl; [constructor|].
  now apply insert_row_sorted.
Qed.

(** Sorting a sorted frame leaves it as it is. *)
Lemma sort_values_id df : Sorted row_le df -> sort_values df = df.
Proof.
  induction 1 as [|r df Hs IH Hhd]; simpl; [reflexivity|].
  rewrite IH. destruct Hhd as [|r' df' Hle]; simpl; [reflexivity|].
  unfold row_le in Hle. now rewrite Hle.
Qed.

Lemma sorted_rows_keys df :
  Sorted row_le df <-> Sorted key_ordered (map key (records df)).
Proof.
  induction df as [|r df IH]; simpl.
  - split; constructor.
  - split; intros H; inversion H as [|r0 l Hs Hhd]; subst;
      (constructor; [now apply IH|]);
      destruct df as [|r' df]; simpl in *; constructor;
      inversion Hhd; subst; now apply key_le_ordered.
Qed.

Lemma reset_index_records df : records (reset_index df) = records df.
Proof.
  unfold reset_index, records.
  generalize 0%nat. induction df as [|r df IH]; intros n; simpl; [reflexivity|].
  f_equal. apply IH.
Qed.

Lemma reset_index_index df : index (reset_index df) = seq 0 (List.length df).
Proof.
  unfold reset_index, records, index.
  generalize 0%nat. induction df as [|r df IH]; intros n; simpl; [reflexivity|].
  f_equal. apply IH.
Qed.

Lemma reset_index_id df :
  index df = seq 0 (List.length df) -> reset_index df = df.
Proof.
  unfold reset_index, records, index.
  generalize 0%nat. induction df as [|[i s] df IH]; intros n; simpl; [reflexivity|].
  intros H. injection H as -> H. f_equal. now apply IH.
Qed.

Lemma records_perm df1 df2 :
  Permutation df1 df2 -> Permutation (records df1) (records df2).
Proof. apply Permutation_map. Qed.

End Sorting.

Lemma Sorted_consecutive {A} (R : A -> A -> Prop) (l : list A) (i : nat) (a b : A) :
  Sorted R l -> nth_error l i = Some a -> nth_error l (S i) = Some b -> R a b.
Proof.
  intros Hs; revert i; induction Hs as [|x l Hs IH Hhd]; intros i Ha Hb.
  - destruct i; discriminate.
  - destruct i as [|i]; simpl in *.
    + injection Ha as ->. destruct Hhd; simpl in Hb; [discriminate|].
      now injection Hb as ->.
    + now apply (IH i).
Qed.

(* ================================================================== *)
(** ** The sort order is a total order on keys *)

Lemma ascii_compare_refl (a : ascii) : Ascii.compare a a = Eq.
Proof. unfold Ascii.compare. apply N.compare_refl. Qed.

Lemma ascii_compare_lt_trans (a b c : ascii) :
  Ascii.compare a b = Lt -> Ascii.compare b c = Lt -> Ascii.compare a c = Lt.
Proof.
  unfold Ascii.compare. rewrite !N.compare_lt_iff. apply N.lt_trans.
Qed.

Lemma string_compare_lt_trans (s1 s2 s3 : string) :
  String.compare s1 s2 = Lt -> String.compare s2 s3 = Lt -> String.compare s1 s3 = Lt.
Proof.
  revert s2 s3; induction s1 as [|a s1 IH]; intros [|b s2] [|c s3]; simpl;
    try discriminate; try reflexivity.
  destruct (Ascii.compare a b) eqn:Hab; try discriminate;
    destruct (Ascii.compare b c) eqn:Hbc; try discriminate; intros H12 H23.
  - apply Ascii.compare_eq_iff in Hab, Hbc. subst.
    rewrite ascii_compare_refl. now apply IH with s2.
  - apply Ascii.compare_eq_iff in Hab. subst. now rewrite Hbc.
  - apply Ascii.compare_eq_iff in Hbc. subst. now rewrite Hab.
  - now rewrite (ascii_compare_lt_trans a b c).
Qed.

Lemma string_leb_trans (s1 s2 s3 : string) :
  (s1 <=? s2)%string = true -> (s2 <=? s3)%string = true -> (s1 <=? s3)%string = true.
Proof.
  unfold String.leb.
  destruct (String.compare s1 s2) eqn:H12; try discriminate;
    destruct (String.compare s2 s3) eqn:H23; try discriminate; intros _ _.
  - apply String.compare_eq_iff in H12. subst. now rewrite H23.
  - apply String.compare_eq_iff in H12. subst. now rewrite H23.
  - apply String.compare_eq_iff in H23. subst. now rewrite H12.
  - now rewrite (string_compare_lt_trans s1 s2 s3).
Qed.

Lemma obj_ordered_trans (a b c : obj) :
  obj_ordered a b -> obj_ordered b c -> obj_ordered a c.
Proof.
  destruct a as [x|x], b as [y|y], c as [z|z]; simpl; try tauto.
  - lia.
  - apply string_leb_trans.
Qed.

Lemma obj_ordered_antisym (a b : obj) :
  obj_ordered a b -> obj_ordered b a -> a = b.
Proof.
  destruct a as [x|x], b as [y|y]; simpl; try tauto.
  - intros H1 H2. f_equal. lia.
  - intros H1 H2. f_equal. now apply String.leb_antisym.
Qed.

Lemma obj_before_trans (a b c : obj) :
  obj_before a b -> obj_before b c -> obj_before a c.
Proof.
  intros [Hab Hne] [Hbc Hne']. split.
  - now apply obj_ordered_trans with b.
  - intros ->. apply Hne. now apply obj_ordered_antisym.
Qed.

Lemma entry_ordered_trans (a b c : entry) :
  entry_ordered a b -> entry_ordered b c -> entry_ordered a c.
Proof.
  destruct a as [x|], b as [y|], c as [z|]; simpl; try tauto.
  apply obj_ordered_trans.
Qed.

Lemma entry_ordered_antisym (a b : entry) :
  entry_ordered a b -> entry_ordered b a -> a = b.
Proof.
  destruct a as [x|], b as [y|]; simpl; try tauto.
  intros H1 H2. f_equal. now apply obj_ordered_antisym.
Qed.

Lemma key_ordered_trans (a b c : entry * entry) :
  key_ordered a b -> key_ordered b c -> key_ordered a c.
Proof.
  unfold key_ordered. destruct a as [ya ta], b as [yb tb], c as [yc tc]; simpl.
  intros [[Hne Hab]|[Heq Hab]] [[Hne' Hbc]|[Heq' Hbc]].
  - left. split; [|now apply entry_ordered_trans with yb].
    intros ->. apply Hne. now apply entry_ordered_antisym.
  - subst yc. left. now split.
  - subst yb. left. now split.
  - subst yb yc. right. split; [reflexivity|]. now apply entry_ordered_trans with tb.
Qed.

Lemma key_ordered_antisym (a b : entry * entry) :
  key_ordered a b -> key_ordered b a -> a = b.
Proof.
  unfold key_ordered. destruct a as [ya ta], b as [yb tb]; simpl.
  intros [[Hne Hab]|[Heq Hab]] [[Hne' Hba]|[Heq' Hba]].
  - exfalso. apply Hne. now apply entry_ordered_antisym.
  - exfalso. apply Hne. now symmetry.
  - exfalso. apply Hne'. now symmetry.
  - subst yb. f_equal. now apply entry_ordered_antisym.
Qed.

(** Two sorted lists with the same elements are the same list. *)
Lemma sorted_perm_unique (l1 l2 : list (entry * entry)) :
  Sorted key_ordered l1 -> Sorted key_ordered l2 -> Permutation l1 l2 -> l1 = l2.
Proof.
  intros H1 H2.
  apply Sorted_StronglySorted in H1; [|intros a b c; apply key_ordered_trans].
  apply Sorted_StronglySorted in H2; [|intros a b c; apply key_ordered_trans].
  revert l2 H2. induction H1 as [|a l1 Hs1 IH Hall1]; intros l2 H2 Hperm.
  - now apply Permutation_nil in Hperm.
  - destruct H2 as [|b l2 Hs2 Hall2].
    + symmetry in Hperm. now apply Permutation_nil in Hperm.
    + rewrite Forall_forall in Hall1, Hall2.
      assert (Hab : a = b).
      { assert (Ha : In a (b :: l2)) by (apply (Permutation_in _ Hperm); now left).
        assert (Hb : In b (a :: l1)).
        { apply (Permutation_in _ (Permutation_sym Hperm)). now left. }
        destruct Ha as [Ha|Ha]; [now symmetry|].
        destruct Hb as [Hb|Hb]; [assumption|].
        apply key_ordered_antisym; [now apply Hall1|now apply Hall2]. }
      subst b. f_equal. apply IH; [assumption|].
      now apply Permutation_cons_inv with a.
Qed.

Lemma dropna_records (df : DataFrame cell) :
  records (dropna df) = with_episodes (records df).
Proof.
  unfold dropna, with_episodes, records. induction df as [|r df IH]; simpl; [reflexivity|].
  destruct (isna (episodes (snd r))); simpl; now rewrite IH.
Qed.

Lemma perm_same_keys {E} (l1 l2 : list (show E)) :
  Permutation l1 l2 -> map key l1 = map key l2 -> NoDup (map key l1) -> l1 = l2.
Proof.
  revert l2; induction l1 as [|a l1 IH]; intros [|b l2] Hperm Hkeys Hnd;
    try discriminate; [reflexivity|].
  cbn [map] in Hkeys, Hnd. injection Hkeys as Hy Ht Hkeys.
  inversion Hnd as [|k ks Hnot Hnd']; subst.
  assert (Heq : a = b).
  { assert (Ha : In a (b :: l2)) by (apply (Permutation_in _ Hperm); now left).
    destruct Ha as [Ha|Ha]; [now symmetry|].
    exfalso. apply Hnot. rewrite Hkeys. now apply in_map. }
  subst b. f_equal. apply IH; try assumption.
  now apply Permutation_cons_inv with a.
Qed.

Lemma filter_perm {A} (f : A -> bool) (l1 l2 : list A) :
  Permutation l1 l2 -> Permutation (filter f l1) (filter f l2).
Proof.
  induction 1 as [|x l1 l2 _ IH|x y l|l1 l2 l3 _ IH1 _ IH2]; simpl.
  - constructor.
  - destruct (f x); [now constructor|assumption].
  - destruct (f x), (f y); try reflexivity. apply perm_swap.
  - now transitivity (filter f l2).
Qed.

Lemma NoDup_titles_keys {E} (l : list (show E)) :
  NoDup (map title l) -> NoDup (map key l).
Proof.
  intros Hnd. apply (NoDup_map_inv snd). now rewrite map_key_titles.
Qed.

Lemma reset_index_of_records {E} (df1 df2 : DataFrame E) :
  records df1 = records df2 -> reset_index df1 = reset_index df2.
Proof.
  intros Heq. unfold reset_index. rewrite Heq. f_equal. f_equal.
  unfold records in Heq. apply (f_equal (@List.length _)) in Heq.
  now rewrite !length_map in Heq.
Qed.

(** With distinct titles nothing is dropped as a duplicate. *)
Lemma removed_duplicates_distinct (shows : DataFrame cell) :
  NoDup (map title (with_episodes (records shows))) ->
  removed_duplicates shows = clean_shows shows.
Proof.
  intros Hnd. unfold removed_duplicates, drop_duplicates.
  apply drop_seen_id; [|intros t _ []].
  unfold clean_shows. now rewrite dropna_records.
Qed.

Lemma reindexed_order_independent (shows1 shows2 : DataFrame cell) :
  Permutation (records shows1) (records shows2) ->
  NoDup (map title (with_episodes (records shows1))) ->
  sorted_shows_reindexed shows1 = sorted_shows_reindexed shows2.
Proof.
  intros Hperm Hnd1.
  assert (Hpf : Permutation (with_episodes (records shows1))
                            (with_episodes (records shows2))).
  { now apply filter_perm. }
  assert (Hnd2 : NoDup (map title (with_episodes (records shows2)))).
  { apply Permutation_NoDup with (map title (with_episodes (records shows1)));
      [now apply Permutation_map|assumption]. }
  unfold sorted_shows_reindexed, sorted_shows_by_key.
  rewrite !removed_duplicates_distinct by assumption.
  apply reset_index_of_records.
  assert (Hps : Permutation (records (sort_values (clean_shows shows1)))
                            (records (sort_values (clean_shows shows2)))).
  { rewrite (records_perm _ _ (sort_values_perm (clean_shows shows1))).
    rewrite (records_perm _ _ (sort_values_perm (clean_shows shows2))).
    unfold clean_shows. now rewrite !dropna_records. }
  apply perm_same_keys; [assumption| |].
  - apply sorted_perm_unique.
    + apply sorted_rows_keys, sort_values_sorted.
    + apply sorted_rows_keys, sort_values_sorted.
    + now apply Permutation_map.
  - apply NoDup_titles_keys.
    apply Permutation_NoDup with (map title (with_episodes (records shows1))); [|assumption].
    apply Permutation_map. symmetry.
    rewrite (records_perm _ _ (sort_values_perm (clean_shows shows1))).
    unfold clean_shows. now rewrite dropna_records.
Qed.

(* ================================================================== *)
(** ** The aggregates: [nunique], [sum] and [groupby] *)

Lemma unique_seen_id (seen l : list entry) :
  NoDup l -> (forall t, In t l -> ~ In t seen) -> unique_seen seen l = l.
Proof.
  revert seen; induction l as [|s l IH]; intros seen Hnd Hfresh; simpl; [reflexivity|].
  inversion Hnd as [|s0 l0 Hnot Hnd']; subst.
  assert (Hs : existsb (entry_eqb s) seen = false).
  { apply seen_not_In. apply Hfresh. now left. }
  rewrite Hs. f_equal. apply IH; [assumption|].
  intros t Ht [<-|Hin]; [contradiction|].
  apply (Hfresh t); [now right|assumption].
Qed.

Lemma nunique_NoDup (l : list entry) :
  NoDup l -> nunique l = Z.of_nat (List.length (filter notna l)).
Proof.
  intros Hnd. unfold nunique, unique.
  rewrite unique_seen_id; [reflexivity|assumption|]. intros t _ [].
Qed.

Lemma wrap64_range (z : Z) : Np.in_int64 (Np.wrap64 z) = true.
Proof.
  unfold Np.in_int64, Np.int64_min, Np.int64_max, Np.wrap64.
  pose proof (Z.mod_pos_bound (z + 2 ^ 63) (2 ^ 64) ltac:(lia)).
  apply andb_true_iff. rewrite !Z.leb_le. lia.
Qed.

Lemma wrap64_small (z : Z) : Np.in_int64 z = true -> Np.wrap64 z = z.
Proof.
  unfold Np.in_int64, Np.int64_min, Np.int64_max, Np.wrap64.
  rewrite andb_true_iff, !Z.leb_le. intros [Hlo Hhi].
  rewrite Z.mod_small; lia.
Qed.

Lemma wrap64_add_l (a x : Z) : Np.wrap64 (Np.wrap64 a + x) = Np.wrap64 (a + x).
Proof.
  unfold Np.wrap64. f_equal.
  replace ((a + 2 ^ 63) mod 2 ^ 64 - 2 ^ 63 + x + 2 ^ 63)
    with ((a + 2 ^ 63) mod 2 ^ 64 + x) by lia.
  rewrite Zplus_mod_idemp_l. f_equal. lia.
Qed.

Lemma fold_add64 (l : list Z) (a : Z) :
  fold_left Np.add64 l (Np.wrap64 a) = Np.wrap64 (a + exact_sum l).
Proof.
  revert a; induction l as [|x l IH]; intros a; simpl.
  - now rewrite Z.add_0_r.
  - unfold Np.add64 at 2. rewrite wrap64_add_l, IH. f_equal. lia.
Qed.

Lemma sum_wrap64 (l : list Z) : sum l = Np.wrap64 (exact_sum l).
Proof.
  unfold sum. change 0 with (Np.wrap64 0) at 1. now rewrite fold_add64.
Qed.

Lemma insert_key_In (y k : obj) (ks : list obj) :
  In k (insert_key y ks) <-> k = y \/ In k ks.
Proof.
  induction ks as [|k0 ks IH]; simpl.
  - intuition.
  - destruct (obj_eqb y k0) eqn:Heq; simpl.
    + apply obj_eqb_eq in Heq. subst. intuition.
    + destruct (obj_le y k0); simpl; [intuition|].
      rewrite IH. intuition.
Qed.

Lemma obj_eqb_neq (a b : obj) : obj_eqb a b = false <-> a <> b.
Proof.
  rewrite <- obj_eqb_eq. destruct (obj_eqb a b); split; congruence.
Qed.

Lemma insert_key_HdRel (k0 y : obj) (ks : list obj) :
  HdRel obj_before k0 ks -> obj_before k0 y -> HdRel obj_before k0 (insert_key y ks).
Proof.
  intros Hhd Hlt. destruct ks as [|k ks]; simpl.
  - now constructor.
  - destruct (obj_eqb y k); [assumption|].
    destruct (obj_le y k); constructor; [assumption|now inversion Hhd].
Qed.

Lemma insert_key_sorted (y : obj) (ks : list obj) :
  Sorted obj_before ks -> Sorted obj_before (insert_key y ks).
Proof.
  induction 1 as [|k ks Hs IH Hhd]; simpl.
  - repeat constructor.
  - destruct (obj_eqb y k) eqn:Heq; [now constructor|].
    apply obj_eqb_neq in Heq.
    destruct (obj_le y k) eqn:Hle.
    + apply obj_le_ordered in Hle.
      constructor; [now constructor|]. constructor. now split.
    + apply obj_le_total, obj_le_ordered in Hle.
      constructor; [assumption|]. apply insert_key_HdRel; [assumption|].
      split; [assumption|congruence].
Qed.

Lemma group_keys_In (ys : list obj) (k : obj) : In k (group_keys ys) <-> In k ys.
Proof.
  induction ys as [|y ys IH]; simpl; [reflexivity|].
  rewrite insert_key_In, IH. intuition.
Qed.

Lemma group_keys_sorted (ys : list obj) : Sorted obj_before (group_keys ys).
Proof.
  induction ys as [|y ys IH]; simpl; [constructor|].
  now apply insert_key_sorted.
Qed.

Lemma sorted_before_NoDup (ks : list obj) : Sorted obj_before ks -> NoDup ks.
Proof.
  intros Hs. apply Sorted_StronglySorted in Hs; [|intros a b c; apply obj_before_trans].
  induction Hs as [|k ks Hs IH Hall]; constructor; [|assumption].
  intros Hin. rewrite Forall_forall in Hall. destruct (Hall k Hin) as [_ Hne].
  now apply Hne.
Qed.

Lemma exact_sum_indicator (y : obj) (ks : list obj) :
  NoDup ks -> In y ks ->
  exact_sum (map (fun k => if obj_eqb y k then 1 else 0) ks) = 1.
Proof.
  induction 1 as [|k ks Hnot Hnd IH]; simpl; [contradiction|].
  assert (Hzero : forall l, ~ In y l ->
            exact_sum (map (fun k => if obj_eqb y k then 1 else 0) l) = 0).
  { induction l as [|k' l IHl]; simpl; [reflexivity|].
    intros Hn. destruct (obj_eqb y k') eqn:Heq.
    - apply obj_eqb_eq in Heq. exfalso. apply Hn. now left.
    - rewrite IHl; [reflexivity|]. intros Hin. apply Hn. now right. }
  intros [->|Hin].
  - rewrite (proj2 (obj_eqb_eq y y) eq_refl), Hzero; [reflexivity|assumption].
  - destruct (obj_eqb y k) eqn:Heq.
    + apply obj_eqb_eq in Heq. subst. contradiction.
    + now rewrite IH.
Qed.

Lemma exact_sum_zero {A} (l : list A) : exact_sum (map (fun _ => 0) l) = 0.
Proof. induction l; simpl; [reflexivity|assumption]. Qed.

Lemma exact_sum_counts {E} (ks : list obj) (l : list (show E)) :
  NoDup ks -> (forall r y, In r l -> year r = Val y -> In y ks) ->
  exact_sum (map (fun k => count_year k l) ks) = Z.of_nat (List.length (with_year l)).
Proof.
  intros Hnd. induction l as [|r l IH]; intros Hall.
  - unfold count_year; simpl. apply exact_sum_zero.
  - assert (IH' : exact_sum (map (fun k => count_year k l) ks)
                  = Z.of_nat (List.length (with_year l))).
    { apply IH. intros r' y Hr'. apply Hall. now right. }
    unfold with_year in *. cbn [filter].
    destruct (year r) as [y|] eqn:Hy; cbn [notna].
    + assert (Hsplit : forall ks',
                exact_sum (map (fun k => count_year k (r :: l)) ks') =
                exact_sum (map (fun k => if obj_eqb y k then 1 else 0) ks') +
                exact_sum (map (fun k => count_year k l) ks')).
      { induction ks' as [|k ks' IHk]; simpl; [reflexivity|].
        rewrite IHk. unfold count_year at 1 3; simpl. unfold has_year at 1.
        rewrite Hy. simpl. destruct (obj_eqb y k); simpl List.length; lia. }
      rewrite Hsplit, exact_sum_indicator, IH'.
      * simpl List.length. lia.
      * assumption.
      * apply (Hall r); [now left|assumption].
    + rewrite <- IH'. f_equal. apply map_ext. intros k.
      unfold count_year; simpl. unfold has_year at 1. now rewrite Hy.
Qed.

Lemma present_years_In {E} (df : DataFrame E) (y : obj) :
  In y (present_years df) <-> In (Val y) (map year (records df)).
Proof.
  unfold present_years, records. rewrite map_map, in_flat_map, in_map_iff.
  split.
  - intros (r & Hr & Hy). exists r. split; [|assumption].
    destruct (year (snd r)); simpl in Hy; [|contradiction].
    destruct Hy as [->|[]]. reflexivity.
  - intros (r & Hy & Hr). exists r. split; [assumption|]. rewrite Hy. now left.
Qed.

Lemma num_spec {E} (df : DataFrame E) :
  groupby_year_size df =
  map (fun k => (k, count_year k (records df))) (group_keys (present_years df)).
Proof.
  unfold groupby_year_size, count_year, records.
  apply map_ext. intros k. do 2 f_equal.
  induction df as [|r df IH]; simpl; [reflexivity|].
  destruct (has_year k (snd r)); simpl; now rewrite IH.
Qed.

(* ================================================================== *)
(** ** The cleaning steps, composed *)

Section Pipeline.

Variable shows : DataFrame cell.
Variable cleaned : DataFrame Z.
Hypothesis Hrun : sorted_shows shows = Ok cleaned.

Lemma cleaned_converts : Forall2 converts (sorted_shows_reindexed shows) cleaned.
Proof. now apply astype_int_Ok. Qed.

Lemma reindexed_records :
  records (sorted_shows_reindexed shows) = records (sorted_shows_by_key shows).
Proof. apply reset_index_records. Qed.

Lemma by_key_perm : Permutation (sorted_shows_by_key shows) (removed_duplicates shows).
Proof. apply sort_values_perm. Qed.

Lemma removed_duplicates_subseq : subseq (removed_duplicates shows) shows.
Proof.
  apply subseq_trans with (clean_shows shows).
  - apply drop_seen_subseq.
  - apply subseq_filter.
Qed.

Lemma cleaned_keys :
  map key (records cleaned) = map key (records (sorted_shows_by_key shows)).
Proof. rewrite <- reindexed_records. apply converts_keys, cleaned_converts. Qed.

Lemma cleaned_titles_NoDup : NoDup (map title (records cleaned)).
Proof.
  rewrite <- map_key_titles, cleaned_keys, map_key_titles.
  apply Permutation_NoDup with (map title (records (removed_duplicates shows))).
  - symmetry. apply Permutation_map, records_perm, by_key_perm.
  - apply drop_seen_NoDup.
Qed.

Lemma cleaned_keys_sorted : Sorted key_ordered (map key (records cleaned)).
Proof. rewrite cleaned_keys. apply sorted_rows_keys, sort_values_sorted. Qed.

Lemma cleaned_index : index cleaned = seq 0 (List.length cleaned).
Proof.
  rewrite (converts_index _ _ cleaned_converts).
  unfold sorted_shows_reindexed. rewrite reset_index_index. f_equal.
  rewrite <- (Forall2_length cleaned_converts).
  unfold sorted_shows_reindexed, reset_index.
  rewrite length_combine, length_seq. unfold records. rewrite length_map. lia.
Qed.

(** Every cleaned record is the conversion of a row that [drop_duplicates]
    kept. *)
Lemma cleaned_In_kept (r : show Z) :
  In r (records cleaned) ->
  exists r0, In r0 (records (removed_duplicates shows)) /\
             title r = title r0 /\ year r = year r0 /\
             astype_int_cell (episodes r0) = Ok (episodes r).
Proof.
  intros Hin.
  destruct (converts_In _ _ r cleaned_converts Hin) as (r0 & Hr0 & H).
  exists r0. split; [|assumption].
  rewrite reindexed_records in Hr0.
  now apply (Permutation_in _ (records_perm _ _ by_key_perm)).
Qed.

End Pipeline.

Lemma astype_int_cell_int64 (c : cell) (z : Z) :
  astype_int_cell c = Ok z -> Np.in_int64 z = true.
Proof.
  destruct c as [z0|f|s|b]; simpl.
  - intros H. injection H as <-. apply wrap64_range.
  - destruct (Np.trunc f); [|discriminate].
    intros H. injection H as <-.
    unfold Np.cast_int64. destruct (Np.in_int64 z0) eqn:Hr; [assumption|reflexivity].
  - destruct (int_of_str s) as [z0|e]; simpl; [|discriminate].
    destruct (Np.in_int64 z0) eqn:Hr; [|discriminate].
    intros H. now injection H as <-.
  - intros H. injection H as <-. now destruct b.
Qed.

Lemma converts_int64 (df : DataFrame cell) (out : DataFrame Z) :
  Forall2 converts df out ->
  Forall (fun r => Np.in_int64 (episodes (snd r)) = true) out.
Proof.
  induction 1 as [|r r' df out (_ & _ & _ & He) _ IH]; constructor; [|assumption].
  now apply astype_int_cell_int64 with (episodes (snd r)).
Qed.

Lemma as_loaded_converts (df : DataFrame Z) :
  Forall (fun r => Np.in_int64 (episodes (snd r)) = true) df ->
  Forall2 converts (as_loaded df) df.
Proof.
  induction 1 as [|[i [t y z]] df Hz _ IH]; simpl; constructor; [|assumption].
  unfold converts; simpl. simpl in Hz. rewrite wrap64_small by assumption. auto.
Qed.

Lemma as_loaded_no_na (df : DataFrame Z) :
  Forall (fun r => isna (episodes (snd r)) = false) (as_loaded df).
Proof. induction df; simpl; constructor; auto. Qed.

Lemma as_loaded_length (df : DataFrame Z) : List.length (as_loaded df) = List.length df.
Proof. apply length_map. Qed.

(* ================================================================== *)
(** ** The library layer on small inputs *)

Example int_of_str_padded : int_of_str " 12 " = Ok 12.
Proof. reflexivity. Qed.

Example int_of_str_signed_grouped : int_of_str "-1_000" = Ok (-1000).
Proof. reflexivity. Qed.

Example int_of_str_float_literal : int_of_str "5.0" = Raise (InvalidLiteral "5.0").
Proof. reflexivity. Qed.

Example int_of_str_empty : int_of_str "" = Raise (InvalidLiteral "").
Proof. reflexivity. Qed.

(** The Arabic-Indic digits one and two, as UTF-8 bytes. *)
Example int_of_str_arabic_indic :
  int_of_str (String "217" (String "161" (String "217" (String "162" EmptyString))))
  = Ok 12.
Proof. reflexivity. Qed.

(** A file separator is white space for [str.strip], not for [int()]. *)
Example int_of_str_file_separator :
  int_of_str (String "028" "5") = Raise (InvalidLiteral (String "028" "5")).
Proof. reflexivity. Qed.

Example astype_int_truncates :
  astype_int_cell (FloatV (binary_normalize Np.prec Np.emax 57 (-1) false)) = Ok 28 /\
  astype_int_cell (FloatV (binary_normalize Np.prec Np.emax (-57) (-1) false)) = Ok (-28).
Proof. split; reflexivity. Qed.

Example astype_int_infinity :
  astype_int_cell (FloatV (S754_infinity false)) = Raise NonFinite.
Proof. reflexivity. Qed.

Example astype_int_str_too_large :
  astype_int_cell (StrV "9223372036854775808") = Raise OverflowError.
Proof. reflexivity. Qed.

Example astype_int_uint64_wraps :
  astype_int_cell (IntV (2 ^ 64 - 1)) = Ok (-1).
Proof. reflexivity. Qed.

Example astype_int_bool :
  astype_int_cell (BoolV true) = Ok 1 /\ astype_int_cell (BoolV false) = Ok 0.
Proof. split; reflexivity. Qed.

Example drop_duplicates_keeps_first :
  drop_duplicates (read_csv [Show "A" 1 (IntV 1); Show "B" 2 (IntV 2); Show "A" 3 (IntV 3)])
  = [(0%nat, Show "A" 1 (IntV 1)); (1%nat, Show "B" 2 (IntV 2))].
Proof. reflexivity. Qed.

Example drop_duplicates_missing_titles :
  drop_duplicates (read_csv [Show NA 1 (IntV 1); Show NA 2 (IntV 2)])
  = [(0%nat, Show NA 1 (IntV 1))].
Proof. reflexivity. Qed.

Example sort_values_is_stable :
  sort_values (read_csv [Show "B" 2 (IntV 1); Show "A" 2 (IntV 2); Show "C" 1 (IntV 3);
                         Show "A" 2 (IntV 4)])
  = [(2%nat, Show "C" 1 (IntV 3)); (1%nat, Show "A" 2 (IntV 2));
     (3%nat, Show "A" 2 (IntV 4)); (0%nat, Show "B" 2 (IntV 1))].
Proof. reflexivity. Qed.

Example sort_values_numeric_titles :
  sort_values (read_csv [Show 10 2 (IntV 1); Show 9 2 (IntV 2)])
  = [(1%nat, Show 9 2 (IntV 2)); (0%nat, Show 10 2 (IntV 1))].
Proof. reflexivity. Qed.

Example sort_values_missing_last :
  sort_values (read_csv [Show "A" NA (IntV 1); Show NA 2 (IntV 2);
                         Show "B" 2 (IntV 3)])
  = [(2%nat, Show "B" 2 (IntV 3)); (1%nat, Show NA 2 (IntV 2));
     (0%nat, Show "A" NA (IntV 1))].
Proof. reflexivity. Qed.

Example nunique_skips_missing : nunique [Val "A"; NA; Val "A"; Val "B"] = 2.
Proof. reflexivity. Qed.

Example groupby_year_size_sorted :
  groupby_year_size (read_csv [Show "A" 2005 0; Show "B" 1999 0; Show "C" 2005 0;
                               Show "D" NA 0])
  = [(PyInt 1999, 1); (PyInt 2005, 2)].
Proof. reflexivity. Qed.

Example arange_step_five : Np.arange 2000 (2010 + 1) 5 = [2000; 2005; 2010].
Proof. reflexivity. Qed.

(* ================================================================== *)
(** ** Properties of the cleaned dataset *)

(** Claim C1.  Whenever the cleaning steps run to completion, no two records
    of the cleaned frame share a title, and no record has a missing
    [episodes] value: the converted column holds none, and none reached the
    conversion step. *)
Theorem cleaned_titles_unique_episodes_present
  (shows : DataFrame cell) (cleaned : DataFrame Z) :
  sorted_shows shows = Ok cleaned ->
  NoDup (map title (records cleaned)) /\
  Forall (fun r => isna (episodes r) = false) (records (as_loaded cleaned)) /\
  Forall (fun r => isna (episodes r) = false) (records (sorted_shows_reindexed shows)).
Proof.
  intros Hrun. split; [|split].
  - now apply cleaned_titles_NoDup with shows.
  - unfold records. apply Forall_map. apply as_loaded_no_na.
  - rewrite reindexed_records. apply Forall_forall. intros r Hr.
    apply (Permutation_in _ (records_perm _ _ (by_key_perm shows))) in Hr.
    unfold records in Hr. apply in_map_iff in Hr. destruct Hr as (ir & <- & Hir).
    apply (subseq_In _ _ _ (drop_seen_subseq [] (clean_shows shows))) in Hir.
    now apply dropna_In in Hir.
Qed.

Lemma cleaned_titles_unique_episodes_present_witness :
  sorted_shows (read_csv example_rows)
  = Ok example_cleaned /\
  NoDup (map title (records example_cleaned)).
Proof.
  split; [reflexivity|].
  apply (cleaned_titles_unique_episodes_present (read_csv example_rows)
           example_cleaned).
  reflexivity.
Defined.

(** What the order says of two records with text titles when the second has
    a numeric year. *)
Lemma key_ordered_texts {E} (r1 r2 : show E) (y2 : Z) (s1 s2 : string) :
  key_ordered (key r1) (key r2) ->
  year r2 = y2 -> title r1 = s1 -> title r2 = s2 ->
  exists y1 : Z, year r1 = y1 /\
                 (y1 < y2 \/ (y1 = y2 /\ (s1 <=? s2)%string = true)).
Proof.
  unfold key_ordered, key; simpl. intros Hord Hy2 Ht1 Ht2.
  rewrite Hy2, Ht1, Ht2 in Hord.
  destruct Hord as [[Hne Hord]|[Heq Hord]].
  - destruct (year r1) as [[y1|s]|]; simpl in Hord; try contradiction.
    exists y1. split; [reflexivity|]. left.
    assert (y1 <> y2) by (intros ->; now apply Hne). lia.
  - exists y2. split; [assumption|]. right. split; [reflexivity|exact Hord].
Qed.

(** Claim C2, as stated, fails when a year is missing: on [yearless_rows]
    the record of 2020 is followed by the record without a year, and no
    comparison with a missing year holds. *)
Lemma sorted_disjunction_counterexample :
  sorted_shows (read_csv yearless_rows) = Ok yearless_cleaned /\
  nth_error (records yearless_cleaned) 0 = Some (Show "B" 2020 2) /\
  nth_error (records yearless_cleaned) 1 = Some (Show "A" NA 1) /\
  ~ compared_le (Show "B" 2020 2) (Show "A" NA 1).
Proof.
  repeat split. intros [H|[H _]]; exact H.
Qed.

(** Claim C2, amended.  The records of the cleaned frame are in ascending
    order of (year, title), a record without a year after every record with
    one and, within a year, a record without a title after every record with
    one.  Between two consecutive records whose titles are texts, when the
    second has a numeric year, the first has a smaller year, or the same
    year and a title that is not after the second's. *)
Theorem cleaned_sorted_by_year_title
  (shows : DataFrame cell) (cleaned : DataFrame Z) (i : nat) (r1 r2 : show Z) :
  sorted_shows shows = Ok cleaned ->
  nth_error (records cleaned) i = Some r1 ->
  nth_error (records cleaned) (S i) = Some r2 ->
  key_ordered (key r1) (key r2) /\
  (forall (y2 : Z) (s1 s2 : string),
      year r2 = y2 -> title r1 = s1 -> title r2 = s2 ->
      exists y1 : Z, year r1 = y1 /\
                     (y1 < y2 \/ (y1 = y2 /\ (s1 <=? s2)%string = true))).
Proof.
  intros Hrun H1 H2.
  assert (Hord : key_ordered (key r1) (key r2)).
  { apply (Sorted_consecutive key_ordered (map key (records cleaned)) i).
    - now apply cleaned_keys_sorted with shows.
    - now rewrite nth_error_map, H1.
    - now rewrite nth_error_map, H2. }
  split; [assumption|]. intros y2 s1 s2 Hy2 Ht1 Ht2.
  apply (key_ordered_texts _ _ _ _ _ Hord Hy2 Ht1 Ht2).
Qed.

Lemma cleaned_sorted_by_year_title_witness :
  sorted_shows (read_csv example_rows) = Ok example_cleaned /\
  key_ordered (key (Show "Show C" 2019 5)) (key (Show "Show A" 2020 10)) /\
  exists y1 : Z, year (Show "Show C" 2019 5) = y1 /\
                 (y1 < 2020 \/ (y1 = 2020 /\ ("Show C" <=? "Show A")%string = true)).
Proof.
  split; [reflexivity|].
  destruct (cleaned_sorted_by_year_title (read_csv example_rows) example_cleaned
              0%nat (Show "Show C" 2019 5) (Show "Show A" 2020 10)
              eq_refl eq_refl eq_refl) as [Hord Htext].
  split; [exact Hord|].
  exact (Htext 2020 "Show C" "Show A" eq_refl eq_refl eq_refl).
Defined.

(* ================================================================== *)
(** ** Properties of the aggregates *)

(** Claim C3.  The two totals on two frames.  On [overflowing_rows] the
    cleaned frame keeps both rows, the exact sum of their episodes is
    [2 ^ 63], and [total_episodes_overall] is [- 2 ^ 63]: the int64 sum has
    wrapped.  On [untitled_rows] the cleaned frame has two records and
    [total_shows_overall] is 1: the record without a title is not counted. *)
Theorem totals_on_overflow_and_missing_title :
  (sorted_shows (read_csv overflowing_rows) = Ok overflowing_cleaned /\
   exact_sum (map episodes (records overflowing_cleaned)) = 2 ^ 63 /\
   total_episodes_overall overflowing_cleaned = - 2 ^ 63) /\
  (sorted_shows (read_csv untitled_rows) = Ok untitled_cleaned /\
   Z.of_nat (List.length (records untitled_cleaned)) = 2 /\
   total_shows_overall untitled_cleaned = 1).
Proof. repeat split; reflexivity. Qed.

(** Claim C4.  On the example rows of the specification the script produces
    the cleaned rows (Show C, 2019, 5), (Show A, 2020, 10), two shows,
    fifteen episodes, and one show for each of 2019 and 2020. *)
Theorem example_run :
  exists cleaned : DataFrame Z,
    sorted_shows (read_csv example_rows) = Ok cleaned /\
    records cleaned = [Show "Show C" 2019 5; Show "Show A" 2020 10] /\
    total_shows_overall cleaned = 2 /\
    total_episodes_overall cleaned = 15 /\
    num cleaned = [(PyInt 2019, 1); (PyInt 2020, 1)].
Proof.
  exists example_cleaned.
  repeat split; reflexivity.
Qed.

Lemma filter_map_length {A B} (f : A -> B) (p : B -> bool) (l : list A) :
  List.length (filter p (map f l)) = List.length (filter (fun x => p (f x)) l).
Proof.
  induction l as [|x l IH]; simpl; [reflexivity|].
  destruct (p (f x)); simpl; now rewrite IH.
Qed.

Lemma filter_all {A} (p : A -> bool) (l : list A) :
  (forall x, In x l -> p x = true) -> filter p l = l.
Proof.
  induction l as [|x l IH]; simpl; intros Hall; [reflexivity|].
  rewrite (Hall x) by (now left). f_equal. apply IH. intros y Hy. apply Hall. now right.
Qed.

Lemma counts_sum (cleaned : DataFrame Z) :
  exact_sum (counts cleaned) = Z.of_nat (List.length (with_year (records cleaned))).
Proof.
  unfold counts, num. rewrite num_spec, map_map. simpl.
  apply exact_sum_counts.
  - apply sorted_before_NoDup, group_keys_sorted.
  - intros r y Hr Hy. apply group_keys_In, present_years_In.
    rewrite <- Hy. now apply in_map.
Qed.

Lemma total_shows_titled (shows : DataFrame cell) (cleaned : DataFrame Z) :
  sorted_shows shows = Ok cleaned ->
  total_shows_overall cleaned = Z.of_nat (List.length (with_title (records cleaned))).
Proof.
  intros Hrun. unfold total_shows_overall, with_title.
  rewrite nunique_NoDup by (now apply cleaned_titles_NoDup with shows).
  now rewrite filter_map_length.
Qed.

(** Claim C5, as stated, fails when a cleaned record has no year: on
    [yearless_rows] the yearly summary has the one entry (2020, 1), its
    counts sum to 1, and [total_shows_overall] is 2. *)
Lemma yearly_counts_sum_counterexample :
  sorted_shows (read_csv yearless_rows) = Ok yearless_cleaned /\
  num yearless_cleaned = [(PyInt 2020, 1)] /\
  exact_sum (counts yearless_cleaned) = 1 /\
  total_shows_overall yearless_cleaned = 2 /\
  exact_sum (counts yearless_cleaned) <> total_shows_overall yearless_cleaned.
Proof.
  repeat split; try reflexivity. discriminate.
Qed.

(** Claim C5, amended.  The per-year counts add up to the number of cleaned
    records that have a year, and [total_shows_overall] is the number of
    cleaned records that have a title; so the counts add up to
    [total_shows_overall] whenever every cleaned record has a year and a
    title.  The summary has one entry per distinct year of the cleaned
    frame, in ascending order of year, each with the number of records of
    that year. *)
Theorem yearly_counts_sum_to_total_shows
  (shows : DataFrame cell) (cleaned : DataFrame Z) :
  sorted_shows shows = Ok cleaned ->
  exact_sum (counts cleaned) = Z.of_nat (List.length (with_year (records cleaned))) /\
  total_shows_overall cleaned = Z.of_nat (List.length (with_title (records cleaned))) /\
  ((forall r, In r (records cleaned) -> year r <> NA /\ title r <> NA) ->
   exact_sum (counts cleaned) = total_shows_overall cleaned) /\
  Sorted obj_before (years cleaned) /\
  (forall y, In y (years cleaned) <-> In (Val y) (map year (records cleaned))) /\
  (forall y n, In (y, n) (num cleaned) -> n = count_year y (records cleaned)).
Proof.
  intros Hrun.
  pose proof (counts_sum cleaned) as Hcounts.
  pose proof (total_shows_titled shows cleaned Hrun) as Htotal.
  split; [assumption|]. split; [assumption|]. split; [|split; [|split]].
  - intros Hall. rewrite Hcounts, Htotal. unfold with_year, with_title.
    rewrite !filter_all; [reflexivity| |].
    + intros r Hr. destruct (Hall r Hr) as [_ Ht]. now destruct (title r).
    + intros r Hr. destruct (Hall r Hr) as [Hy _]. now destruct (year r).
  - unfold years, num. rewrite num_spec, map_map. simpl. rewrite map_id.
    apply group_keys_sorted.
  - intros y. unfold years, num. rewrite num_spec, map_map. simpl. rewrite map_id.
    rewrite group_keys_In. apply present_years_In.
  - intros y n Hin. unfold num in Hin. rewrite num_spec in Hin.
    apply in_map_iff in Hin. destruct Hin as (k & Heq & _).
    now injection Heq as <- <-.
Qed.

Lemma yearly_counts_sum_to_total_shows_witness :
  sorted_shows (read_csv example_rows) = Ok example_cleaned /\
  (forall r, In r (records example_cleaned) -> year r <> NA /\ title r <> NA) /\
  exact_sum (counts example_cleaned) = total_shows_overall example_cleaned.
Proof.
  assert (Hall : forall r, In r (records example_cleaned) ->
                           year r <> NA /\ title r <> NA).
  { intros r [<-|[<-|[]]]; split; discriminate. }
  split; [reflexivity|]. split; [exact Hall|].
  destruct (yearly_counts_sum_to_total_shows (read_csv example_rows) example_cleaned
              eq_refl) as (_ & _ & Hsum & _).
  exact (Hsum Hall).
Defined.

(* ================================================================== *)
(** ** Idempotence, provenance and the error paths *)

(** Claim C6.  Cleaning is idempotent: run on its own output, read back as a
    loaded frame, no step removes or moves a row, and the result is that
    same output. *)
Theorem cleaning_idempotent (shows : DataFrame cell) (cleaned : DataFrame Z) :
  sorted_shows shows = Ok cleaned ->
  clean_shows (as_loaded cleaned) = as_loaded cleaned /\
  removed_duplicates (as_loaded cleaned) = as_loaded cleaned /\
  sorted_shows_by_key (as_loaded cleaned) = as_loaded cleaned /\
  sorted_shows_reindexed (as_loaded cleaned) = as_loaded cleaned /\
  sorted_shows (as_loaded cleaned) = Ok cleaned.
Proof.
  intros Hrun.
  pose proof (as_loaded_converts cleaned
                (converts_int64 _ _ (cleaned_converts shows cleaned Hrun))) as Hconv.
  assert (H1 : clean_shows (as_loaded cleaned) = as_loaded cleaned).
  { apply dropna_id, as_loaded_no_na. }
  assert (H2 : removed_duplicates (as_loaded cleaned) = as_loaded cleaned).
  { unfold removed_duplicates. rewrite H1. apply drop_seen_id; [|intros t _ []].
    rewrite <- map_key_titles, <- (converts_keys _ _ Hconv), map_key_titles.
    now apply cleaned_titles_NoDup with shows. }
  assert (H3 : sorted_shows_by_key (as_loaded cleaned) = as_loaded cleaned).
  { unfold sorted_shows_by_key. rewrite H2. apply sort_values_id, sorted_rows_keys.
    rewrite <- (converts_keys _ _ Hconv). now apply cleaned_keys_sorted with shows. }
  assert (H4 : sorted_shows_reindexed (as_loaded cleaned) = as_loaded cleaned).
  { unfold sorted_shows_reindexed. rewrite H3. apply reset_index_id.
    rewrite <- (converts_index _ _ Hconv), as_loaded_length.
    now apply cleaned_index with shows. }
  repeat split; try assumption.
  unfold sorted_shows. rewrite H4. now apply astype_int_Ok.
Qed.

Lemma cleaning_idempotent_witness :
  sorted_shows (read_csv example_rows)
  = Ok example_cleaned /\
  sorted_shows (as_loaded example_cleaned)
  = Ok example_cleaned.
Proof.
  split; [reflexivity|].
  apply (cleaning_idempotent (read_csv example_rows)
           example_cleaned).
  reflexivity.
Defined.

(** Claim C7, as stated, fails when the first row of a title has no episode
    count: on [shadowed_rows] the first record bearing title A in the input
    is the one of 2020, and the record retained for A is the one of 2021. *)
Lemma retained_first_in_input_counterexample :
  sorted_shows (read_csv shadowed_rows) = Ok [(0%nat, Show "A" 2021 5)] /\
  first_with_title "A" (records (read_csv shadowed_rows))
  = Some (Show "A" 2020 (FloatV S754_nan)) /\
  year (Show "A" 2021 5) <> year (Show "A" 2020 (FloatV S754_nan)) /\
  astype_int_cell (episodes (Show "A" 2020 (FloatV S754_nan)))
  <> Ok (episodes (Show "A" 2021 5)).
Proof.
  repeat split; try reflexivity; discriminate.
Qed.

(** Claim C7, amended.  The record retained for a title of the cleaned frame
    is, with its episodes converted, the first record bearing that title
    among the input records whose [episodes] value is not missing, in input
    order. *)
Theorem retained_first_with_episodes
  (shows : DataFrame cell) (cleaned : DataFrame Z) (r : show Z) :
  sorted_shows shows = Ok cleaned ->
  In r (records cleaned) ->
  exists r0 : show cell,
    first_with_title (title r)
      (filter (fun x => negb (isna (episodes x))) (records shows)) = Some r0 /\
    title r = title r0 /\ year r = year r0 /\
    astype_int_cell (episodes r0) = Ok (episodes r).
Proof.
  intros Hrun Hin.
  destruct (cleaned_In_kept shows cleaned Hrun r Hin) as (r0 & Hr0 & Ht & Hy & He).
  exists r0. repeat split; try assumption.
  unfold records in Hr0. apply in_map_iff in Hr0. destruct Hr0 as (ir & <- & Hir).
  apply drop_seen_first in Hir.
  change (filter (fun x => negb (isna (episodes x))) (records shows))
    with (with_episodes (records shows)).
  rewrite <- dropna_records. unfold first_with_title.
  rewrite find_records, Ht. fold (clean_shows shows). now rewrite Hir.
Qed.

Lemma retained_first_with_episodes_witness :
  sorted_shows (read_csv shadowed_rows) = Ok [(0%nat, Show "A" 2021 5)] /\
  In (Show "A" 2021 5) (records [(0%nat, Show "A" 2021 5)]) /\
  exists r0 : show cell,
    first_with_title "A"
      (filter (fun x => negb (isna (episodes x))) (records (read_csv shadowed_rows)))
    = Some r0 /\
    title (Show "A" 2021 5) = title r0 /\ year (Show "A" 2021 5) = year r0 /\
    astype_int_cell (episodes r0) = Ok 5.
Proof.
  split; [reflexivity|]. split; [now left|].
  apply (retained_first_with_episodes (read_csv shadowed_rows)
           [(0%nat, Show "A" 2021 5)] (Show "A" 2021 5)).
  - reflexivity.
  - now left.
Defined.

(** Claim C8.  On an empty frame the cleaned frame is empty and the
    aggregates are 0, 0 and the empty summary.  The chart code then makes its
    drawing calls and evaluates [min(years)] on the empty list: the run ends
    in [ValueError], before any tick is placed and before the chart is
    shown.  Nothing tests for the empty case first. *)
Theorem empty_input_run :
  sorted_shows (read_csv []) = Ok [] /\
  total_shows_overall [] = 0 /\
  total_episodes_overall [] = 0 /\
  num (@nil (nat * show Z)) = [] /\
  main (read_csv [])
  = ([Plt.figure 12 6; Plt.plot [] []; Plt.text 0 0; Plt.grid;
      Plt.xlabel "Year"; Plt.ylabel "Number of Shows";
      Plt.title "TV Shows Aired per Year"],
     Raise (ValueError "min() arg is an empty sequence")).
Proof. repeat split; reflexivity. Qed.






Lemma converts_records (df : DataFrame cell) (out : DataFrame Z) :
  Forall2 converts df out ->
  Forall2 (fun r0 r => title r = title r0 /\ year r = year r0 /\
                       astype_int_cell (episodes r0) = Ok (episodes r))
          (records df) (records out).
Proof.
  induction 1 as [|r0 r df out (_ & H) _ IH]; simpl; constructor; assumption.
Qed.

(** Claim C10.  Cleaning fabricates nothing: every cleaned record has the
    title and the year of a record of the input, and for episodes the
    integer conversion of that record's value.  The steps only remove rows
    (the kept rows are a subsequence of the input), reorder them (the sorted
    frame is a permutation of the kept rows) and convert the [episodes]
    column row by row. *)
Theorem cleaning_preserves_records (shows : DataFrame cell) (cleaned : DataFrame Z) :
  sorted_shows shows = Ok cleaned ->
  (forall r, In r (records cleaned) ->
     exists r0, In r0 (records shows) /\
                title r = title r0 /\ year r = year r0 /\
                astype_int_cell (episodes r0) = Ok (episodes r)) /\
  subseq (removed_duplicates shows) shows /\
  Permutation (sorted_shows_by_key shows) (removed_duplicates shows) /\
  Forall2 (fun r0 r => title r = title r0 /\ year r = year r0 /\
                       astype_int_cell (episodes r0) = Ok (episodes r))
          (records (sorted_shows_by_key shows)) (records cleaned).
Proof.
  intros Hrun. split; [|split; [|split]].
  - intros r Hin.
    destruct (cleaned_In_kept shows cleaned Hrun r Hin) as (r0 & Hr0 & H).
    exists r0. split; [|assumption].
    unfold records in *. apply in_map_iff in Hr0. destruct Hr0 as (ir & <- & Hir).
    apply in_map. apply (subseq_In _ _ _ (removed_duplicates_subseq shows) Hir).
  - apply removed_duplicates_subseq.
  - apply by_key_perm.
  - rewrite <- reindexed_records. apply converts_records.
    now apply cleaned_converts.
Qed.

Lemma cleaning_preserves_records_witness :
  sorted_shows (read_csv example_rows)
  = Ok example_cleaned /\
  forall r, In r [Show "Show C" 2019 5; Show "Show A" 2020 10] ->
    exists r0, In r0 (records (read_csv example_rows)) /\
               title r = title r0 /\ year r = year r0 /\
               astype_int_cell (episodes r0) = Ok (episodes r).
Proof.
  split; [reflexivity|].
  apply (cleaning_preserves_records (read_csv example_rows)
           example_cleaned).
  reflexivity.
Defined.

(* ================================================================== *)
(** ** Further properties of the cleaning steps *)

Lemma drop_seen_titles {E} (seen : list entry) (df : DataFrame E) :
  map title (records (drop_seen seen df)) = unique_seen seen (map title (records df)).
Proof.
  revert seen; induction df as [|r df IH]; intros seen; simpl; [reflexivity|].
  destruct (existsb _ seen); simpl; now rewrite IH.
Qed.

Lemma drop_seen_complete {E} (seen : list entry) (df : DataFrame E) (r : nat * show E) :
  In r df -> ~ In (title (snd r)) seen ->
  exists r', In r' (drop_seen seen df) /\ title (snd r') = title (snd r).
Proof.
  revert seen; induction df as [|r0 df IH]; intros seen Hin Hfresh; simpl; [contradiction|].
  destruct (existsb _ seen) eqn:Hs.
  - destruct Hin as [->|Hin].
    + apply seen_In in Hs. contradiction.
    + now apply IH.
  - destruct Hin as [->|Hin].
    + exists r. split; [now left|reflexivity].
    + destruct (entry_eqb (title (snd r0)) (title (snd r))) eqn:Heq.
      * apply entry_eqb_eq in Heq. exists r0. split; [now left|assumption].
      * apply entry_eqb_neq in Heq.
        destruct (IH (title (snd r0) :: seen) Hin) as (r' & Hr' & Ht).
        { intros [H|H]; [contradiction|]. contradiction. }
        exists r'. split; [now right|assumption].
Qed.

(** The first row of a title is kept when the title has not been seen. *)
Lemma drop_seen_keeps_first {E} (seen : list entry) (df : DataFrame E)
      (t : entry) (r : nat * show E) :
  find (fun x => entry_eqb (title (snd x)) t) df = Some r ->
  ~ In t seen -> In r (drop_seen seen df).
Proof.
  revert seen; induction df as [|r0 df IH]; intros seen Hfind Hfresh; simpl in *;
    [discriminate|].
  destruct (entry_eqb (title (snd r0)) t) eqn:Heq.
  - injection Hfind as ->. apply entry_eqb_eq in Heq.
    apply seen_not_In in Hfresh. rewrite <- Heq in Hfresh. rewrite Hfresh. now left.
  - apply entry_eqb_neq in Heq.
    destruct (existsb _ seen).
    + now apply IH.
    + right. apply IH; [assumption|]. intros [H|H]; contradiction.
Qed.

Lemma converts_In_source (df : DataFrame cell) (out : DataFrame Z) (r : show cell) :
  Forall2 converts df out -> In r (records df) ->
  exists r', In r' (records out) /\ title r' = title r /\ year r' = year r /\
             astype_int_cell (episodes r) = Ok (episodes r').
Proof.
  induction 1 as [|r0 r0' df out (_ & Ht & Hy & He) _ IH]; simpl; [contradiction|].
  intros [<-|Hin].
  - exists (snd r0'). auto.
  - destruct (IH Hin) as (r' & Hr' & H). exists r'. auto.
Qed.

Lemma cast_int64_range (t : Z) : Np.in_int64 (Np.cast_int64 t) = true.
Proof.
  unfold Np.cast_int64. destruct (Np.in_int64 t) eqn:H; [assumption|reflexivity].
Qed.

Lemma leb_neq_ltb (s1 s2 : string) :
  (s1 <=? s2)%string = true -> s1 <> s2 -> (s1 <? s2)%string = true.
Proof.
  unfold String.leb, String.ltb. intros Hle Hne.
  destruct (String.compare s1 s2) eqn:Hc; try reflexivity; try discriminate.
  apply String.compare_eq_iff in Hc. contradiction.
Qed.

Lemma dropna_idem (df : DataFrame cell) : dropna (dropna df) = dropna df.
Proof.
  apply dropna_id. apply Forall_forall. intros r Hr. now apply dropna_In in Hr.
Qed.

Lemma drop_duplicates_idem {E} (df : DataFrame E) :
  drop_duplicates (drop_duplicates df) = drop_duplicates df.
Proof.
  unfold drop_duplicates. apply drop_seen_id; [apply drop_seen_NoDup|intros t _ []].
Qed.

Lemma sort_values_idem {E} (df : DataFrame E) :
  sort_values (sort_values df) = sort_values df.
Proof. apply sort_values_id, sort_values_sorted. Qed.

Lemma reset_index_idem {E} (df : DataFrame E) :
  reset_index (reset_index df) = reset_index df.
Proof.
  apply reset_index_id. rewrite reset_index_index. f_equal.
  unfold reset_index, records. now rewrite length_combine, length_seq, length_map, Nat.min_id.
Qed.

Lemma NoDup_map_eq {A B} (f : A -> B) (l : list A) (a b : A) :
  NoDup (map f l) -> In a l -> In b l -> f a = f b -> a = b.
Proof.
  induction l as [|x l IH]; simpl; intros Hnd Ha Hb Heq; [contradiction|].
  inversion Hnd as [|y ys Hnot Hnd']; subst.
  destruct Ha as [->|Ha], Hb as [->|Hb]; try reflexivity.
  - exfalso. apply Hnot. rewrite Heq. now apply in_map.
  - exfalso. apply Hnot. rewrite <- Heq. now apply in_map.
  - now apply IH.
Qed.

Lemma cleaned_length (shows : DataFrame cell) (cleaned : DataFrame Z) :
  sorted_shows shows = Ok cleaned ->
  List.length cleaned = List.length (removed_duplicates shows).
Proof.
  intros Hrun.
  rewrite <- (Forall2_length (cleaned_converts shows cleaned Hrun)).
  unfold sorted_shows_reindexed, reset_index, records.
  rewrite length_combine, length_seq, length_map, Nat.min_id.
  apply Permutation_length, by_key_perm.
Qed.

Lemma count_year_pos {E} (y : obj) (l : list (show E)) :
  In (Val y) (map year l) -> 1 <= count_year y l.
Proof.
  unfold count_year. induction l as [|r l IH]; simpl; [contradiction|].
  unfold has_year at 1. destruct (entry_eqb (year r) (Val y)) eqn:Heq;
    simpl List.length; [lia|].
  intros [H|H]; [|now apply IH].
  rewrite H, entry_eqb_refl in Heq. discriminate.
Qed.

Lemma count_year_le {E} (y : obj) (l : list (show E)) :
  count_year y l <= Z.of_nat (List.length l).
Proof.
  unfold count_year. apply inj_le. apply filter_length_le.
Qed.

(** Property X1.  After cleaning, the index of the frame is the range 0, 1, ..., n-1:
    the label of each row is its position. *)
Theorem cleaned_index_is_range (shows : DataFrame cell) (cleaned : DataFrame Z) :
  sorted_shows shows = Ok cleaned ->
  index cleaned = seq 0 (List.length cleaned) /\
  forall i r, nth_error cleaned i = Some r -> fst r = i.
Proof.
  intros Hrun. pose proof (cleaned_index shows cleaned Hrun) as Hidx.
  split; [assumption|]. intros i r Hnth.
  assert (Hfst : nth_error (index cleaned) i = Some (fst r)).
  { unfold index. now rewrite nth_error_map, Hnth. }
  rewrite Hidx in Hfst.
  assert (Hlt : (i < List.length cleaned)%nat).
  { apply nth_error_Some. congruence. }
  rewrite nth_error_seq in Hfst.
  destruct (Nat.ltb_spec i (List.length cleaned)); [|lia].
  injection Hfst as <-. reflexivity.
Qed.

Lemma cleaned_index_is_range_witness :
  sorted_shows (read_csv example_rows) = Ok example_cleaned /\
  index example_cleaned = [0%nat; 1%nat].
Proof.
  split; [reflexivity|].
  apply (cleaned_index_is_range (read_csv example_rows) example_cleaned).
  reflexivity.
Defined.

(** Property X2.  Each cleaning step is idempotent on every frame: applied twice,
    [dropna], [drop_duplicates], [sort_values] and [reset_index] give what
    they give applied once. *)
Theorem cleaning_steps_idempotent (df : DataFrame cell) :
  dropna (dropna df) = dropna df /\
  drop_duplicates (drop_duplicates df) = drop_duplicates df /\
  sort_values (sort_values df) = sort_values df /\
  reset_index (reset_index df) = reset_index df.
Proof.
  repeat split.
  - apply dropna_idem.
  - apply drop_duplicates_idem.
  - apply sort_values_idem.
  - apply reset_index_idem.
Qed.

(** Property X3.  [total_shows_overall] is the number of distinct titles among the
    input rows that have an [episodes] value, and cleaning never yields more
    rows than it was given. *)
Theorem total_shows_counts_input_titles (shows : DataFrame cell) (cleaned : DataFrame Z) :
  sorted_shows shows = Ok cleaned ->
  total_shows_overall cleaned = nunique (map title (with_episodes (records shows))) /\
  (List.length cleaned <= List.length shows)%nat.
Proof.
  intros Hrun. split.
  - unfold total_shows_overall.
    rewrite nunique_NoDup by (now apply cleaned_titles_NoDup with shows).
    rewrite <- dropna_records.
    unfold nunique, unique. rewrite <- drop_seen_titles.
    fold (drop_duplicates (dropna shows)). f_equal.
    apply Permutation_length, filter_perm.
    rewrite <- map_key_titles, (cleaned_keys shows cleaned Hrun), map_key_titles.
    apply Permutation_map, records_perm, by_key_perm.
  - rewrite (cleaned_length shows cleaned Hrun).
    apply subseq_length, removed_duplicates_subseq.
Qed.

Lemma total_shows_counts_input_titles_witness :
  sorted_shows (read_csv example_rows) = Ok example_cleaned /\
  total_shows_overall example_cleaned
  = nunique (map title (with_episodes (records (read_csv example_rows)))) /\
  (List.length example_cleaned <= List.length (read_csv example_rows))%nat.
Proof.
  split; [reflexivity|].
  apply (total_shows_counts_input_titles (read_csv example_rows) example_cleaned).
  reflexivity.
Defined.

(** Property X4.  No title is lost: an input row that has an [episodes] value has
    exactly one cleaned record with its title. *)
Theorem title_with_episodes_is_kept
  (shows : DataFrame cell) (cleaned : DataFrame Z) (r : show cell) :
  sorted_shows shows = Ok cleaned ->
  In r (records shows) ->
  isna (episodes r) = false ->
  exists r', In r' (records cleaned) /\ title r' = title r /\
             forall r'', In r'' (records cleaned) -> title r'' = title r -> r'' = r'.
Proof.
  intros Hrun Hin Hna.
  unfold records in Hin. apply in_map_iff in Hin. destruct Hin as (ir & <- & Hir).
  assert (Hclean : In ir (clean_shows shows)) by (now apply dropna_In).
  destruct (drop_seen_complete [] (clean_shows shows) ir Hclean) as (ir' & Hir' & Ht);
    [intros []|].
  assert (Hsorted : In (snd ir') (records (sorted_shows_reindexed shows))).
  { rewrite reindexed_records. apply in_map.
    apply (Permutation_in _ (Permutation_sym (by_key_perm shows))). exact Hir'. }
  destruct (converts_In_source _ _ _ (cleaned_converts shows cleaned Hrun) Hsorted)
    as (r' & Hr' & Ht' & _).
  exists r'. split; [assumption|]. split; [congruence|].
  intros r'' Hr'' Ht''.
  apply (NoDup_map_eq title (records cleaned)); try assumption.
  - now apply cleaned_titles_NoDup with shows.
  - congruence.
Qed.

Lemma title_with_episodes_is_kept_witness :
  sorted_shows (read_csv example_rows) = Ok example_cleaned /\
  In (Show "Show A" 2020 (FloatV (Np.float_of_Z 10))) (records (read_csv example_rows)) /\
  exists r', In r' (records example_cleaned) /\ title r' = "Show A" /\
             forall r'', In r'' (records example_cleaned) -> title r'' = "Show A" -> r'' = r'.
Proof.
  split; [reflexivity|]. split; [now left|].
  apply (title_with_episodes_is_kept (read_csv example_rows) example_cleaned
           (Show "Show A" 2020 (FloatV (Np.float_of_Z 10)))).
  - reflexivity.
  - now left.
  - reflexivity.
Defined.

(** Property X5.  The converted column is an int64 column: when the int64 cells of the
    input lie in the int64 range, so does every [episodes] value of the
    cleaned frame, whatever the dtype it was loaded with. *)
Theorem cleaned_episodes_in_int64 (shows : DataFrame cell) (cleaned : DataFrame Z) :
  (forall r z, In r (records shows) -> episodes r = IntV z -> Np.in_int64 z = true) ->
  sorted_shows shows = Ok cleaned ->
  Forall (fun r => Np.in_int64 (episodes r) = true) (records cleaned).
Proof.
  intros Hint Hrun. apply Forall_forall. intros r Hr.
  destruct (cleaned_In_kept shows cleaned Hrun r Hr) as (r0 & Hr0 & _ & _ & He).
  now apply (astype_int_cell_int64 (episodes r0)).
Qed.

Lemma cleaned_episodes_in_int64_witness :
  sorted_shows (read_csv example_rows) = Ok example_cleaned /\
  Forall (fun r => Np.in_int64 (episodes r) = true) (records example_cleaned).
Proof.
  split; [reflexivity|].
  apply (cleaned_episodes_in_int64 (read_csv example_rows) example_cleaned).
  - intros r z [<-|[<-|[<-|[<-|[]]]]]; discriminate.
  - reflexivity.
Defined.

(** Property X6.  The cleaned frame is strictly ascending in the sort order:
    of two consecutive records the first is before the second and the second
    is not before the first, since de-duplication left the titles distinct.
    Between two records whose titles are texts, when the second has a
    numeric year, the first has a smaller year, or the same year and a
    strictly smaller title. *)
Theorem cleaned_strictly_sorted
  (shows : DataFrame cell) (cleaned : DataFrame Z) (i : nat) (r1 r2 : show Z) :
  sorted_shows shows = Ok cleaned ->
  nth_error (records cleaned) i = Some r1 ->
  nth_error (records cleaned) (S i) = Some r2 ->
  key_ordered (key r1) (key r2) /\
  ~ key_ordered (key r2) (key r1) /\
  (forall (y2 : Z) (s1 s2 : string),
      year r2 = y2 -> title r1 = s1 -> title r2 = s2 ->
      exists y1 : Z, year r1 = y1 /\
                     (y1 < y2 \/ (y1 = y2 /\ (s1 <? s2)%string = true))).
Proof.
  intros Hrun H1 H2.
  assert (Hord : key_ordered (key r1) (key r2)).
  { apply (Sorted_consecutive key_ordered (map key (records cleaned)) i).
    - now apply cleaned_keys_sorted with shows.
    - now rewrite nth_error_map, H1.
    - now rewrite nth_error_map, H2. }
  assert (Hne : title r1 <> title r2).
  { intros Ht.
    pose proof (cleaned_titles_NoDup shows cleaned Hrun) as Hnd.
    rewrite NoDup_nth_error in Hnd.
    assert (Hi : (i < List.length (map title (records cleaned)))%nat).
    { rewrite length_map. apply nth_error_Some. congruence. }
    specialize (Hnd i (S i) Hi).
    rewrite !nth_error_map, H1, H2 in Hnd. simpl in Hnd.
    rewrite Ht in Hnd. specialize (Hnd eq_refl). lia. }
  split; [assumption|]. split.
  - intros Hrev. apply Hne.
    pose proof (key_ordered_antisym _ _ Hord Hrev) as Heq.
    unfold key in Heq. now injection Heq.
  - intros y2 s1 s2 Hy2 Ht1 Ht2.
    destruct (key_ordered_texts _ _ _ _ _ Hord Hy2 Ht1 Ht2) as (y1 & Hy1 & Hcase).
    exists y1. split; [assumption|].
    destruct Hcase as [Hlt|[Heq Hle]]; [now left|right].
    split; [assumption|]. apply leb_neq_ltb; [assumption|].
    intros Hs. apply Hne. rewrite Ht1, Ht2. now subst.
Qed.

Lemma cleaned_strictly_sorted_witness :
  sorted_shows (read_csv example_rows) = Ok example_cleaned /\
  key_ordered (key (Show "Show C" 2019 5)) (key (Show "Show A" 2020 10)) /\
  ~ key_ordered (key (Show "Show A" 2020 10)) (key (Show "Show C" 2019 5)).
Proof.
  split; [reflexivity|].
  destruct (cleaned_strictly_sorted (read_csv example_rows) example_cleaned
              0%nat (Show "Show C" 2019 5) (Show "Show A" 2020 10)
              eq_refl eq_refl eq_refl) as (Hord & Hrev & _).
  split; [exact Hord|exact Hrev].
Defined.

(** Property X7.  Every entry of the yearly summary counts at least one show:
    a year is listed only if some record of the frame has it, and its count
    is between 1 and the number of records. *)
Theorem yearly_counts_positive (cleaned : DataFrame Z) (y : obj) (n : Z) :
  In (y, n) (num cleaned) ->
  In (Val y) (map year (records cleaned)) /\
  1 <= n <= Z.of_nat (List.length cleaned).
Proof.
  unfold num. rewrite num_spec. intros Hin.
  apply in_map_iff in Hin. destruct Hin as (k & Heq & Hk).
  injection Heq as <- <-. rewrite group_keys_In, present_years_In in Hk.
  split; [assumption|]. split.
  - now apply count_year_pos.
  - etransitivity; [apply count_year_le|]. unfold records. rewrite length_map. lia.
Qed.

Lemma yearly_counts_positive_witness :
  In (PyInt 2019, 1) (num example_cleaned) /\
  In (Val 2019) (map year (records example_cleaned)) /\
  1 <= 1 <= Z.of_nat (List.length example_cleaned).
Proof.
  split; [now left|].
  apply (yearly_counts_positive example_cleaned 2019 1). now left.
Defined.

(* ================================================================== *)
(** ** When the conversion step raises *)

Lemma mapM_all_Ok {A B : Type} (f : A -> result B) (l : list A) :
  (forall x, In x l -> exists y, f x = Ok y) -> exists l', mapM f l = Ok l'.
Proof.
  induction l as [|x l IH]; simpl; intros Hall; [eauto|].
  destruct (Hall x (or_introl eq_refl)) as [y ->]. simpl.
  destruct IH as [l' ->]; [intros x' Hx'; apply Hall; now right|].
  simpl. eauto.
Qed.

Lemma mapM_Raise_first {A B : Type} (f : A -> result B) (l : list A) (e : exn) :
  mapM f l = Raise e <->
  exists pre x post, l = pre ++ x :: post /\
                     Forall (fun a => exists b, f a = Ok b) pre /\ f x = Raise e.
Proof.
  induction l as [|a l IH]; simpl.
  - split; [discriminate|]. intros (pre & x & post & H & _). now destruct pre.
  - destruct (f a) as [b|e0] eqn:Ha; simpl.
    + assert (Hstep : bind (mapM f l) (fun ys => Ok (b :: ys)) = Raise e
                      <-> mapM f l = Raise e).
      { destruct (mapM f l); simpl; split; congruence. }
      rewrite Hstep, IH. split.
      * intros (pre & x & post & -> & Hpre & Hx).
        exists (a :: pre), x, post. repeat split; try assumption.
        constructor; [eauto|assumption].
      * intros (pre & x & post & Heq & Hpre & Hx).
        destruct pre as [|a' pre]; simpl in Heq; injection Heq as -> ->; [congruence|].
        inversion Hpre; subst. exists pre, x, post. auto.
    + split.
      * intros H. injection H as ->. exists [], a, l. repeat split; auto.
      * intros (pre & x & post & Heq & Hpre & Hx).
        destruct pre as [|a' pre]; simpl in Heq; injection Heq as -> ->; [congruence|].
        inversion Hpre as [|? ? [b Hb] ?]; subst. congruence.
Qed.

Lemma astype_int_row_Raise (r : nat * show cell) (e : exn) :
  astype_int_row r = Raise e <-> astype_int_cell (episodes (snd r)) = Raise e.
Proof.
  unfold astype_int_row. destruct (astype_int_cell (episodes (snd r))); simpl;
    split; congruence.
Qed.

Lemma astype_int_row_Ok_ex (r : nat * show cell) :
  (exists r', astype_int_row r = Ok r') <->
  (exists z, astype_int_cell (episodes (snd r)) = Ok z).
Proof.
  unfold astype_int_row. destruct (astype_int_cell (episodes (snd r))); simpl; split;
    intros [x H]; try discriminate; eauto.
Qed.

Lemma is_number_converts (c : cell) :
  is_number c = true -> exists z, astype_int_cell c = Ok z.
Proof.
  destruct c as [z|[b|b| |b m e]|s|b]; simpl; try discriminate; eauto.
Qed.

(** The rows [drop_duplicates] keeps are the first rows of their titles
    among the rows with an [episodes] value. *)
Lemma kept_iff_first (shows : DataFrame cell) (r : show cell) :
  In r (records (removed_duplicates shows)) <->
  first_with_title (title r) (with_episodes (records shows)) = Some r.
Proof.
  unfold first_with_title. rewrite <- dropna_records, find_records.
  fold (clean_shows shows). split.
  - intros Hin. unfold records in Hin. apply in_map_iff in Hin.
    destruct Hin as (ir & <- & Hir).
    apply drop_seen_first in Hir. now rewrite Hir.
  - intros Hfind.
    destruct (find _ (clean_shows shows)) as [ir|] eqn:Hf; [|discriminate].
    injection Hfind as <-. apply in_map.
    apply (drop_seen_keeps_first [] _ _ _ Hf). intros [].
Qed.

Lemma kept_convert_succeeds (shows : DataFrame cell) :
  (forall r, In r (records (removed_duplicates shows)) ->
             exists z, astype_int_cell (episodes r) = Ok z) ->
  exists cleaned, sorted_shows shows = Ok cleaned.
Proof.
  intros Hall. unfold sorted_shows, astype_int. apply mapM_all_Ok.
  intros ir Hir. apply astype_int_row_Ok_ex. apply Hall.
  apply (Permutation_in _ (records_perm _ _ (by_key_perm shows))).
  rewrite <- reindexed_records. now apply in_map.
Qed.

(** Property X8.  Cleaning runs to completion exactly when [astype(int)] accepts the
    [episodes] cell of every row that is the first of its title among the
    rows with an [episodes] value.  Cells of rows that are dropped play no
    part. *)
Theorem cleaning_succeeds_iff (shows : DataFrame cell) :
  (exists cleaned, sorted_shows shows = Ok cleaned) <->
  (forall r, first_with_title (title r) (with_episodes (records shows)) = Some r ->
             exists z, astype_int_cell (episodes r) = Ok z).
Proof.
  split.
  - intros [cleaned Hrun] r Hfirst. apply kept_iff_first in Hfirst.
    assert (Hin : In r (records (sorted_shows_reindexed shows))).
    { rewrite reindexed_records.
      apply (Permutation_in _ (Permutation_sym (records_perm _ _ (by_key_perm shows)))).
      exact Hfirst. }
    destruct (converts_In_source _ _ _ (cleaned_converts shows cleaned Hrun) Hin)
      as (r' & _ & _ & _ & He).
    eauto.
  - intros Hall. apply kept_convert_succeeds. intros r Hr.
    apply Hall. now apply kept_iff_first.
Qed.

(** Property X9.  A frame whose [episodes] cells are all numbers (int64, or float64
    other than an infinity) or missing is cleaned without an exception. *)
Theorem numeric_episodes_never_raise (shows : DataFrame cell) :
  (forall r, In r (records shows) ->
             isna (episodes r) = false -> is_number (episodes r) = true) ->
  exists cleaned, sorted_shows shows = Ok cleaned.
Proof.
  intros Hnum. apply kept_convert_succeeds. intros r Hr.
  apply is_number_converts.
  unfold records in Hr. apply in_map_iff in Hr. destruct Hr as (ir & <- & Hir).
  apply (subseq_In _ _ _ (drop_seen_subseq [] (clean_shows shows))) in Hir.
  apply dropna_In in Hir. destruct Hir as [Hin Hna].
  apply Hnum; [now apply in_map|assumption].
Qed.

Lemma numeric_episodes_never_raise_witness :
  (forall r, In r (records (read_csv example_rows)) ->
             isna (episodes r) = false -> is_number (episodes r) = true) /\
  exists cleaned, sorted_shows (read_csv example_rows) = Ok cleaned.
Proof.
  assert (Hnum : forall r, In r (records (read_csv example_rows)) ->
                           isna (episodes r) = false -> is_number (episodes r) = true).
  { intros r [<-|[<-|[<-|[<-|[]]]]]; simpl; intros H; try reflexivity; discriminate. }
  split; [exact Hnum|].
  apply (numeric_episodes_never_raise (read_csv example_rows) Hnum).
Defined.

(** Property X10.  When cleaning raises, the exception is the one of the first row, in
    sorted order, whose [episodes] cell [astype(int)] rejects; the rows
    before it convert. *)
Theorem cleaning_raises_first_rejected (shows : DataFrame cell) (e : exn) :
  sorted_shows shows = Raise e <->
  exists pre r post,
    records (sorted_shows_reindexed shows) = pre ++ r :: post /\
    Forall (fun x => exists z, astype_int_cell (episodes x) = Ok z) pre /\
    astype_int_cell (episodes r) = Raise e.
Proof.
  unfold sorted_shows, astype_int. split.
  - intros Hraise. apply mapM_Raise_first in Hraise.
    destruct Hraise as (pre & ir & post & Heq & Hpre & Hir).
    exists (records pre), (snd ir), (records post). repeat split.
    + rewrite Heq. unfold records. now rewrite map_app.
    + unfold records. apply Forall_map.
      eapply Forall_impl; [|exact Hpre]. intros a Ha. now apply astype_int_row_Ok_ex.
    + now apply astype_int_row_Raise.
  - intros (pre & r & post & Heq & Hpre & Hr).
    unfold records in Heq. apply map_eq_app in Heq.
    destruct Heq as (pre' & rest & Hdf & Hpre' & Hrest).
    apply map_eq_cons in Hrest. destruct Hrest as (ir & post' & -> & <- & _).
    apply mapM_Raise_first.
    exists pre', ir, post'. repeat split; [assumption| |now apply astype_int_row_Raise].
    subst pre. apply Forall_forall. intros a Ha. apply astype_int_row_Ok_ex.
    rewrite Forall_forall in Hpre. apply Hpre. now apply in_map.
Qed.

(* ================================================================== *)
(** ** The chart *)

Lemma for_each_draw {A} (g : A -> Plt.call) (l : list A) (log : list Plt.call) :
  Plt.for_each (fun x => Plt.draw (g x)) l log = (log ++ map g l, Ok tt).
Proof.
  revert log; induction l as [|x l IH]; intros log; simpl.
  - unfold Plt.ret. now rewrite app_nil_r.
  - unfold Plt.bind, Plt.draw at 1. rewrite IH. now rewrite <- app_assoc.
Qed.

Lemma combine_fst_snd {A B} (l : list (A * B)) : combine (map fst l) (map snd l) = l.
Proof.
  induction l as [|[a b] l IH]; simpl; [reflexivity|]. now rewrite IH.
Qed.

Lemma insert_key_not_nil (y : obj) (ks : list obj) : insert_key y ks <> [].
Proof.
  destruct ks as [|k ks]; simpl; [discriminate|].
  destruct (obj_eqb y k); [discriminate|]. destruct (obj_le y k); discriminate.
Qed.

Lemma group_keys_nil (ys : list obj) : group_keys ys = [] <-> ys = [].
Proof.
  destruct ys as [|y ys]; simpl; [tauto|].
  split; [|discriminate]. intros H. now apply insert_key_not_nil in H.
Qed.

Lemma years_eq (cleaned : DataFrame Z) : years cleaned = group_keys (present_years cleaned).
Proof.
  unfold years, num. rewrite num_spec, map_map. simpl. now rewrite map_id.
Qed.

Lemma years_In (cleaned : DataFrame Z) (y : obj) :
  In y (years cleaned) <-> In (Val y) (map year (records cleaned)).
Proof. rewrite years_eq, group_keys_In. apply present_years_In. Qed.


(** There is a year to plot exactly when some record has a year. *)
Lemma years_not_nil (cleaned : DataFrame Z) :
  years cleaned <> [] <-> exists r, In r (records cleaned) /\ year r <> NA.
Proof.
  split.
  - intros Hne. destruct (years cleaned) as [|y ys] eqn:Hy; [contradiction|].
    assert (Hin : In y (years cleaned)) by (rewrite Hy; now left).
    apply years_In, in_map_iff in Hin. destruct Hin as (r & Hr & Hin).
    exists r. split; [assumption|]. rewrite Hr. discriminate.
  - intros (r & Hr & Hy) Hnil.
    destruct (year r) as [y|] eqn:Hyr; [|contradiction].
    assert (Hin : In y (years cleaned)).
    { apply years_In. rewrite <- Hyr. now apply in_map. }
    rewrite Hnil in Hin. contradiction.
Qed.









Lemma bind_draw {B} (c : Plt.call) (k : unit -> Plt.drawing B) (log : list Plt.call) :
  Plt.bind (Plt.draw c) k log = k tt (log ++ [c]).
Proof. reflexivity. Qed.

Lemma bind_for_each {A B} (g : A -> Plt.call) (l : list A)
      (k : unit -> Plt.drawing B) (log : list Plt.call) :
  Plt.bind (Plt.for_each (fun x => Plt.draw (g x)) l) k log = k tt (log ++ map g l).
Proof. unfold Plt.bind. now rewrite for_each_draw. Qed.

Lemma bind_eval {A B} (r : result A) (k : A -> Plt.drawing B) (log : list Plt.call) :
  Plt.bind (Plt.eval r) k log
  = match r with Ok a => k a log | Raise e => (log, Raise e) end.
Proof. unfold Plt.bind, Plt.eval. now destruct r. Qed.





(** One pass of [max] succeeds only over values of one kind. *)
Lemma max_from_kind (m : obj) (l : list obj) (r : obj) :
  Py.max_from m l = Ok r ->
  is_int r = is_int m /\ forallb (fun x => Bool.eqb (is_int x) (is_int m)) l = true.
Proof.
  revert m; induction l as [|x l IH]; intros m; simpl.
  - intros H. injection H as <-. auto.
  - unfold py_gt, py_lt.
    destruct m as [a|a], x as [b|b]; simpl; try discriminate; intros H;
      apply IH in H; destruct H as [Hr Hall].
    + destruct (a <? b); simpl in *; auto.
    + destruct (String.ltb a b); simpl in *; auto.
Qed.

(** With a text among them, the years make the tick computation raise
    [TypeError]: in [min] or [max] when numbers are mixed in, in the addition
    otherwise. *)
Lemma min_from_raises (m : obj) (l : list obj) (e : exn) :
  Py.min_from m l = Raise e -> e = TypeError.
Proof.
  revert m; induction l as [|x l IH]; intros m; simpl; [discriminate|].
  unfold py_lt. destruct x as [b|b], m as [a|a]; simpl;
    try (intros H; now injection H as <-); apply IH.
Qed.

Lemma max_from_raises (m : obj) (l : list obj) (e : exn) :
  Py.max_from m l = Raise e -> e = TypeError.
Proof.
  revert m; induction l as [|x l IH]; intros m; simpl; [discriminate|].
  unfold py_gt, py_lt. destruct m as [a|a], x as [b|b]; simpl;
    try (intros H; now injection H as <-); apply IH.
Qed.


(** The chart code up to the display, on the empty log. *)
Lemma render_body (cleaned : DataFrame Z) :
  render cleaned []
  = match Py.min (years cleaned) with
    | Raise e => (chart_body cleaned, Raise e)
    | Ok lo =>
        match Py.max (years cleaned) with
        | Raise e => (chart_body cleaned, Raise e)
        | Ok hi =>
            match py_add hi 1 with
            | Raise e => (chart_body cleaned, Raise e)
            | Ok stop =>
                match Np.arange_obj lo stop 5 with
                | Raise e => (chart_body cleaned, Raise e)
                | Ok ticks =>
                    (chart_body cleaned ++ [Plt.xticks ticks; Plt.show], Ok tt)
                end
            end
        end
    end.
Proof.
  unfold render. rewrite !bind_draw.
  rewrite (bind_for_each annotation), !bind_draw, !bind_eval.
  unfold counts, years. rewrite combine_fst_snd.
  fold (years cleaned) (counts cleaned).
  assert (Hbody : ((((((([] ++ [Plt.figure 12 6])
                        ++ [Plt.plot (years cleaned) (counts cleaned)])
                       ++ map annotation (num cleaned))
                      ++ [Plt.text (total_shows_overall cleaned)
                                   (total_episodes_overall cleaned)])
                     ++ [Plt.grid]) ++ [Plt.xlabel "Year"])
                   ++ [Plt.ylabel "Number of Shows"])
                  ++ [Plt.title "TV Shows Aired per Year"]
                  = chart_body cleaned).
  { unfold chart_body. rewrite <- !app_assoc. reflexivity. }
  rewrite Hbody.
  destruct (Py.min (years cleaned)) as [lo|e]; [|reflexivity].
  rewrite bind_eval. destruct (Py.max (years cleaned)) as [hi|e]; [|reflexivity].
  rewrite bind_eval. destruct (py_add hi 1) as [stop|e]; [|reflexivity].
  rewrite bind_eval. destruct (Np.arange_obj lo stop 5) as [ticks|e]; [|reflexivity].
  rewrite !bind_draw. unfold Plt.draw. rewrite <- !app_assoc. reflexivity.
Qed.


Lemma render_without_years (cleaned : DataFrame Z) :
  years cleaned = [] ->
  render cleaned []
  = (chart_body cleaned, Raise (ValueError "min() arg is an empty sequence")).
Proof.
  intros Hnil. rewrite render_body, Hnil. reflexivity.
Qed.










Lemma dropna_all_missing (df : DataFrame cell) :
  (forall r, In r (records df) -> isna (episodes r) = true) -> dropna df = [].
Proof.
  unfold dropna. induction df as [|r df IH]; simpl; intros Hall; [reflexivity|].
  rewrite (Hall (snd r)) by (now left). simpl. apply IH.
  intros r' Hr'. apply Hall. now right.
Qed.

(** Property X14.  A frame in which every row lacks an [episodes] value, empty or
    not, is cleaned to the empty frame, and the run then ends in the
    [ValueError] of [min] on the empty list of years, after the drawing calls
    that come before the ticks and without displaying the chart. *)
Theorem all_missing_run (shows : DataFrame cell) :
  (forall r, In r (records shows) -> isna (episodes r) = true) ->
  sorted_shows shows = Ok [] /\
  main shows
  = ([Plt.figure 12 6; Plt.plot [] []; Plt.text 0 0; Plt.grid;
      Plt.xlabel "Year"; Plt.ylabel "Number of Shows";
      Plt.title "TV Shows Aired per Year"],
     Raise (ValueError "min() arg is an empty sequence")).
Proof.
  intros Hall.
  assert (Hrun : sorted_shows shows = Ok []).
  { unfold sorted_shows, sorted_shows_reindexed, sorted_shows_by_key,
      removed_duplicates, clean_shows.
    now rewrite dropna_all_missing. }
  split; [assumption|]. unfold main. now rewrite Hrun.
Qed.

Lemma all_missing_run_witness :
  (forall r, In r (records (read_csv [Show "A" 2020 (FloatV S754_nan)])) ->
             isna (episodes r) = true) /\
  snd (main (read_csv [Show "A" 2020 (FloatV S754_nan)]))
  = Raise (ValueError "min() arg is an empty sequence").
Proof.
  split; [intros r [<-|[]]; reflexivity|].
  pose proof (all_missing_run (read_csv [Show "A" 2020 (FloatV S754_nan)])) as H.
  destruct H as [_ ->]; [intros r [<-|[]]; reflexivity|]. reflexivity.
Defined.

(* ================================================================== *)
(** ** The order of the input rows *)

(** Property X15.  When the rows that have an [episodes] value bear distinct titles,
    the outcome does not depend on the order of the input rows: two frames
    with the same rows in any order are cleaned to the same frame (or raise
    the same exception) and give the same chart. *)
Theorem cleaning_order_independent (shows1 shows2 : DataFrame cell) :
  Permutation (records shows1) (records shows2) ->
  NoDup (map title (with_episodes (records shows1))) ->
  sorted_shows shows1 = sorted_shows shows2 /\ main shows1 = main shows2.
Proof.
  intros Hperm Hnd.
  assert (Heq : sorted_shows shows1 = sorted_shows shows2).
  { unfold sorted_shows. now rewrite (reindexed_order_independent shows1 shows2). }
  split; [assumption|]. unfold main. now rewrite Heq.
Qed.

Lemma cleaning_order_independent_witness :
  Permutation (records (read_csv [Show "A" 2020 (IntV 1); Show "B" 2019 (IntV 2)]))
              (records (read_csv [Show "B" 2019 (IntV 2); Show "A" 2020 (IntV 1)])) /\
  NoDup [Val "A"; Val "B"] /\
  sorted_shows (read_csv [Show "A" 2020 (IntV 1); Show "B" 2019 (IntV 2)])
  = sorted_shows (read_csv [Show "B" 2019 (IntV 2); Show "A" 2020 (IntV 1)]).
Proof.
  assert (Hperm : Permutation
            (records (read_csv [Show "A" 2020 (IntV 1); Show "B" 2019 (IntV 2)]))
            (records (read_csv [Show "B" 2019 (IntV 2); Show "A" 2020 (IntV 1)])))
    by apply perm_swap.
  assert (Hnd : NoDup [Val "A"; Val "B"]).
  { constructor; [intros [H|[]]; discriminate|]. constructor; [intros []|constructor]. }
  split; [exact Hperm|]. split; [exact Hnd|].
  apply (cleaning_order_independent
           (read_csv [Show "A" 2020 (IntV 1); Show "B" 2019 (IntV 2)])
           (read_csv [Show "B" 2019 (IntV 2); Show "A" 2020 (IntV 1)]) Hperm Hnd).
Defined.
(* ================================================================== *)
(** ** The sum of the episodes *)

(** Property X16.  [total_episodes_overall] is the exact sum of the episodes
    of the cleaned frame reduced to int64 by two's-complement wrap-around:
    it is the exact sum whenever that sum fits int64, and differs from it by
    a multiple of [2 ^ 64] otherwise. *)
Theorem total_episodes_is_wrapped_sum (cleaned : DataFrame Z) :
  total_episodes_overall cleaned
  = Np.wrap64 (exact_sum (map episodes (records cleaned))) /\
  (Np.in_int64 (exact_sum (map episodes (records cleaned))) = true ->
   total_episodes_overall cleaned = exact_sum (map episodes (records cleaned))) /\
  (exists k, exact_sum (map episodes (records cleaned))
             = total_episodes_overall cleaned + k * 2 ^ 64).
Proof.
  unfold total_episodes_overall. rewrite sum_wrap64.
  split; [reflexivity|]. split; [apply wrap64_small|].
  unfold Np.wrap64.
  exists ((exact_sum (map episodes (records cleaned)) + 2 ^ 63) / 2 ^ 64).
  pose proof (Z_div_mod_eq_full (exact_sum (map episodes (records cleaned)) + 2 ^ 63)
                                (2 ^ 64)).
  lia.
Qed.

Lemma total_episodes_is_wrapped_sum_witness :
  Np.in_int64 (exact_sum (map episodes (records example_cleaned))) = true /\
  total_episodes_overall example_cleaned
  = exact_sum (map episodes (records example_cleaned)).
Proof.
  split; [reflexivity|].
  destruct (total_episodes_is_wrapped_sum example_cleaned) as (_ & Hfits & _).
  exact (Hfits eq_refl).
Defined.

(* ================================================================== *)
(** ** Runs that end at the tick computation *)

(** Property X17.  When cleaning leaves a frame in which no record has a
    year, empty or not, the run ends in the [ValueError] of [min] on the
    empty list of years, after the drawing calls that come before the ticks
    and without displaying the chart. *)
Theorem no_year_run (shows : DataFrame cell) (cleaned : DataFrame Z) :
  sorted_shows shows = Ok cleaned ->
  (forall r, In r (records cleaned) -> year r = NA) ->
  main shows
  = (chart_body cleaned, Raise (ValueError "min() arg is an empty sequence")).
Proof.
  intros Hrun Hall. unfold main. rewrite Hrun. apply render_without_years.
  destruct (years cleaned) as [|y ys] eqn:Hy; [reflexivity|].
  assert (Hne : years cleaned <> []) by (rewrite Hy; discriminate).
  apply years_not_nil in Hne. destruct Hne as (r & Hr & Hyr).
  now rewrite (Hall r Hr) in Hyr.
Qed.

Lemma no_year_run_witness :
  sorted_shows (read_csv [Show "A" NA (IntV 5)]) = Ok [(0%nat, Show "A" NA 5)] /\
  main (read_csv [Show "A" NA (IntV 5)])
  = ([Plt.figure 12 6; Plt.plot [] []; Plt.text 1 5; Plt.grid;
      Plt.xlabel "Year"; Plt.ylabel "Number of Shows";
      Plt.title "TV Shows Aired per Year"],
     Raise (ValueError "min() arg is an empty sequence")).
Proof.
  split; [reflexivity|].
  apply (no_year_run (read_csv [Show "A" NA (IntV 5)]) [(0%nat, Show "A" NA 5)]).
  - reflexivity.
  - intros r [<-|[]]. reflexivity.
Defined.

(** Property X18.  When a cleaned record has a text for year, the run ends
    in [TypeError] at the tick computation, after the drawing calls that
    come before the ticks and without displaying the chart. *)
Theorem text_year_run
  (shows : DataFrame cell) (cleaned : DataFrame Z) (r : show Z) (s : string) :
  sorted_shows shows = Ok cleaned ->
  In r (records cleaned) ->
  year r = s ->
  main shows = (chart_body cleaned, Raise TypeError).
Proof.
  intros Hrun Hr Hy. unfold main. rewrite Hrun, render_body.
  assert (Hin : In (PyStr s) (years cleaned)).
  { apply years_In. rewrite <- Hy. now apply in_map. }
  destruct (years cleaned) as [|y ys] eqn:Hyears; [contradiction|].
  destruct (Py.min (y :: ys)) as [lo|e] eqn:Hmin.
  - destruct (Py.max (y :: ys)) as [hi|e] eqn:Hmax.
    + simpl in Hmax. apply max_from_kind in Hmax. destruct Hmax as [Hhi Hall].
      assert (Htext : is_int y = false).
      { destruct Hin as [->|Hin]; [reflexivity|].
        rewrite forallb_forall in Hall. specialize (Hall _ Hin).
        simpl in Hall. now destruct (is_int y). }
      rewrite Htext in Hhi. destruct hi as [h|h]; [discriminate|]. reflexivity.
    + simpl in Hmax. apply max_from_raises in Hmax. now subst.
  - simpl in Hmin. apply min_from_raises in Hmin. now subst.
Qed.

Lemma text_year_run_witness :
  sorted_shows (read_csv text_year_rows)
  = Ok [(0%nat, Show "B" "MMXIX" 2); (1%nat, Show "A" "MMXX" 1)] /\
  main (read_csv text_year_rows)
  = ([Plt.figure 12 6; Plt.plot [PyStr "MMXIX"; PyStr "MMXX"] [1; 1];
      Plt.annotate 1 "MMXIX" 1; Plt.annotate 1 "MMXX" 1;
      Plt.text 2 3; Plt.grid; Plt.xlabel "Year"; Plt.ylabel "Number of Shows";
      Plt.title "TV Shows Aired per Year"],
     Raise TypeError).
Proof.
  split; [reflexivity|].
  apply (text_year_run (read_csv text_year_rows)
           [(0%nat, Show "B" "MMXIX" 2); (1%nat, Show "A" "MMXX" 1)]
           (Show "A" "MMXX" 1) "MMXX").
  - reflexivity.
  - right. now left.
  - reflexivity.
Defined.
